(** * optopus: domain model, broker translation and bracket orders

    A shallow embedding of the parts of [optopus/data_objects.py],
    [optopus/ib_adapter.py] and [optopus/optopus.py] that the specification
    speaks about.

    Python [float] is IEEE 754 binary64, which is what the primitive floats
    of the Standard Library are: quotes and prices are [float] and the
    arithmetic is the hardware one.  Python [int] is [Z], [str] is [string],
    a [dict] with string keys is a [gmap string], [None] is the [None] of an
    [option], and a call that may raise returns a [result]. *)

From Stdlib Require Import ZArith Floats Ascii String.
From stdpp Require Import base option strings list gmap.

Local Open Scope string_scope.
Local Open Scope Z_scope.

(** ** Python values and exceptions *)

Inductive exn :=
| KeyError (key : string)
| AttributeError (msg : string)
| ValueError (msg : string)
| UnboundLocalError (name : string)
| TypeError (msg : string).

Inductive result (A : Type) :=
| Ok (a : A)
| Raise (e : exn).

Arguments Ok {A} a.
Arguments Raise {A} e.

#[global] Instance result_ret : MRet result := @Ok.

#[global] Instance result_bind : MBind result :=
  fun A B (k : A -> result B) (m : result A) =>
    match m with
    | Ok a => k a
    | Raise e => Raise e
    end.

Definition raises {A} (m : result A) : Prop :=
  exists e, m = Raise e.

Module Py.

(** [nan] and [is_nan] are imported from [optopus.utils]. *)
Definition nan : float := PrimFloat.nan.

Definition is_nan (x : float) : bool := PrimFloat.is_nan x.

Definition le (a b : float) : bool := PrimFloat.leb a b.

Definition lt (a b : float) : bool := PrimFloat.ltb a b.

Definition gt (a b : float) : bool := PrimFloat.ltb b a.

Definition eq (a b : float) : bool := PrimFloat.eqb a b.

(** [max(a, b)] of the builtins: the first argument unless the second is
    greater. *)
Definition max (a b : float) : float := if lt a b then b else a.

(** Truth value of a [str]: the empty string is false. *)
Definition truthy (s : string) : bool :=
  match s with
  | EmptyString => false
  | String _ _ => true
  end.

(** [d[k]] on a [dict]. *)
Definition getitem {V} (d : gmap string V) (k : string) : result V :=
  match d !! k with
  | Some v => Ok v
  | None => Raise (KeyError k)
  end.

(** [k in d] *)
Definition contains {V} (d : gmap string V) (k : string) : bool :=
  bool_decide (is_Some (d !! k)).

(** [s.split(sep)] for a separator of one character. *)
Fixpoint split (sep : Ascii.ascii) (s : string) : list string :=
  match s with
  | EmptyString => [EmptyString]
  | String c s' =>
      if Ascii.eqb c sep then EmptyString :: split sep s'
      else match split sep s' with
           | w :: ws => String c w :: ws
           | [] => [String c EmptyString]
           end
  end.

(** [a, b, c = l] *)
Definition unpack3 {A} (l : list A) : result (A * A * A) :=
  match l with
  | [a; b; c] => Ok (a, b, c)
  | _ => Raise (ValueError "unpack")
  end.

(** [a, b, c, d = l] *)
Definition unpack4 {A} (l : list A) : result (A * A * A * A) :=
  match l with
  | [a; b; c; d] => Ok (a, b, c, d)
  | _ => Raise (ValueError "unpack")
  end.

(** Reading a local variable that may not have been assigned. *)
Definition local {A} (name : string) (x : option A) : result A :=
  match x with
  | Some a => Ok a
  | None => Raise (UnboundLocalError name)
  end.

(** A call with keyword arguments only, of a function that takes neither
    [*args] nor [**kwargs]: the first keyword that names no parameter, if
    there is one, makes the call raise [TypeError]. *)
Definition unexpected_keyword (parameters keywords : list string)
    : option string :=
  List.find (fun k => negb (existsb (String.eqb k) parameters)) keywords.

(** [len(l)] *)
Definition len {A} (l : list A) : Z := Z.of_nat (length l).

(** [range(start, stop, step)], as the list of the values it yields. *)
Definition range (start stop step : Z) : result (list Z) :=
  if step =? 0 then Raise (ValueError "range() arg 3 must not be zero")
  else
    let count :=
      if 0 <? step
      then (if start <? stop then (stop - start + step - 1) / step else 0)
      else (if stop <? start then (start - stop - step - 1) / (- step) else 0) in
    Ok (map (fun k => start + Z.of_nat k * step) (seq 0 (Z.to_nat count))).

(** The bound of a slice brought within a list of [n] elements: a negative
    bound counts from the end, and a bound beyond an end is that end. *)
Definition slice_index (n i : Z) : Z :=
  if i <? 0 then Z.max (i + n) 0 else Z.min i n.

(** [l[i:j]] *)
Definition slice {A} (l : list A) (i j : Z) : list A :=
  let lo := slice_index (len l) i in
  let hi := slice_index (len l) j in
  take (Z.to_nat (hi - lo)) (drop (Z.to_nat lo) l).

(** Truth value of a [float]: zero is false, a NaN is true. *)
Definition truthy_float (x : float) : bool := negb (eq x 0%float).

(** [sep.join(l)] *)
Fixpoint join (sep : string) (l : list string) : string :=
  match l with
  | [] => ""
  | x :: l' =>
      match l' with
      | [] => x
      | _ :: _ => x +:+ sep +:+ join sep l'
      end
  end.

(** A [for] loop that appends what its body returns for each element, and
    stops at the first exception. *)
Fixpoint for_each {A B} (body : A -> result B) (l : list A) : result (list B) :=
  match l with
  | [] => Ok []
  | x :: l' =>
      y ← body x;
      ys ← for_each body l';
      mret (y :: ys)
  end.

(** A [datetime.datetime] is the number of microseconds since the epoch, a
    [timedelta] a number of microseconds; [delta.days] is the floor of the
    division by one day. *)
Definition datetime := Z.

Definition microseconds_per_day : Z := 86400000000.

Definition days (delta : Z) : Z := delta / microseconds_per_day.

(** A [datetime.date]. *)
Record date := Date { year : Z; month : Z; day : Z }.

End Py.

(** ** [data_objects.py]: the enumerations *)

Inductive DataSource := IB | Quandl.

Inductive AssetType :=
| Stock | Option_ | Future | Forex | Index | CFD | Bond | Commodity
| FuturesOption | MutualFund | Warrant.

Inductive StrategyType := SellNakedPut.

Inductive OrderType := Market | Limit | Stop.

(** [ib_adapter.py] imports this enumeration under the name [OptionRight]. *)
Inductive RightType := Call | Put.

Inductive OptionMoneyness := AtTheMoney | InTheMoney | OutTheMoney | NA.

Inductive OwnershipType := Buyer | Seller.

Inductive OrderRol := NewLeg | TakeProfit | StopLoss.

Inductive OrderStatus :=
| APIPending | PendingSubmit | PendingCancel | PreSubmitted | Submitted
| APICancelled | Cancelled | Filled | Inactive.

Definition RightType_value (r : RightType) : string :=
  match r with Call => "C" | Put => "P" end.

Definition OwnershipType_value (o : OwnershipType) : string :=
  match o with Buyer => "BUY" | Seller => "SELL" end.

Definition OrderRol_value (r : OrderRol) : string :=
  match r with NewLeg => "NL" | TakeProfit => "TP" | StopLoss => "SL" end.

(** [optopus.currency.Currency] is an enumeration; the domain model and the
    adapter read only its [.value], by which it is represented. *)
Record Currency := { Currency_value : string }.

(** ** [data_objects.AssetData]: the market snapshot *)

Module AssetData.

Record t := {
  code : string;
  asset_type : AssetType;
  high : float;
  low : float;
  close : float;
  bid : float;
  bid_size : float;
  ask : float;
  ask_size : float;
  last : float;
  last_size : float;
  time : option Py.datetime;
  volume : float;
  stdev : option float;
  midpoint : float;
  market_price : float
}.

(** The last three [if] statements of [__init__], with [self.market_price]
    threaded through them. *)
Definition derive_market_price (midpoint bid last ask close : float) : float :=
  let market_price := Py.nan in
  let market_price :=
    if Py.is_nan midpoint || (Py.le bid last && Py.le last ask)
    then last else market_price in
  let market_price :=
    if Py.is_nan market_price then midpoint else market_price in
  let market_price :=
    if Py.is_nan market_price || Py.eq market_price (-1)%float
    then close else market_price in
  market_price.

Definition __init__ (code : string) (asset_type : AssetType)
    (high low close bid bid_size ask ask_size last last_size volume : float)
    (time : option Py.datetime) : t :=
  let midpoint := PrimFloat.div (PrimFloat.add bid ask) 2%float in
  {| code := code; asset_type := asset_type;
     high := high; low := low; close := close;
     bid := bid; bid_size := bid_size; ask := ask; ask_size := ask_size;
     last := last; last_size := last_size; time := time; volume := volume;
     stdev := None;
     midpoint := midpoint;
     market_price := derive_market_price midpoint bid last ask close |}.

(** A snapshot from its quote alone, the other arguments at their default
    [nan]. *)
Definition of_quote (code : string) (asset_type : AssetType)
    (close bid ask last : float) (time : option Py.datetime) : t :=
  __init__ code asset_type Py.nan Py.nan close bid Py.nan ask Py.nan last
           Py.nan Py.nan time.

End AssetData.

(** ** [data_objects.BarData] *)

Module BarData.

Record t := {
  code : string;
  bar_time : float;
  bar_open : float;
  bar_high : float;
  bar_low : float;
  bar_close : float;
  bar_average : float;
  bar_volume : float;
  bar_count : float
}.

End BarData.

(** ** [data_objects.OptionData] *)

Module OptionData.

(** [moneyness] holds what the caller passes, the string value of an
    [OptionMoneyness]. *)
Record t := {
  code : string;
  asset_type : AssetType;
  expiration : Py.date;
  strike : float;
  right : RightType;
  high : float;
  low : float;
  close : float;
  bid : float;
  bid_size : float;
  ask : float;
  ask_size : float;
  last : float;
  last_size : float;
  option_price : float;
  volume : float;
  delta : float;
  gamma : float;
  theta : float;
  vega : float;
  implied_volatility : float;
  underlying_price : float;
  underlying_dividends : float;
  moneyness : string;
  intrinsic_value : float;
  extrinsic_value : float;
  time : option Py.datetime;
  DTE : Z
}.

Section Builtins.

(** [d.toordinal()]: the difference of two dates is the difference of
    their ordinals, in days. *)
Variable toordinal : Py.date -> Z.

(** [today] is the value of [datetime.datetime.now().date()] at the call. *)
Definition __init__ (code : string) (expiration : Py.date) (strike : float)
    (right : RightType)
    (high low close bid bid_size ask ask_size last last_size option_price
     volume delta gamma theta vega implied_volatility underlying_price
     underlying_dividends : float)
    (moneyness : string) (intrinsic_value extrinsic_value : float)
    (time : option Py.datetime) (today : Py.date) : t :=
  {| code := code; asset_type := Option_; expiration := expiration;
     strike := strike; right := right; high := high; low := low;
     close := close; bid := bid; bid_size := bid_size; ask := ask;
     ask_size := ask_size; last := last; last_size := last_size;
     option_price := option_price; volume := volume; delta := delta;
     gamma := gamma; theta := theta; vega := vega;
     implied_volatility := implied_volatility;
     underlying_price := underlying_price;
     underlying_dividends := underlying_dividends;
     moneyness := moneyness; intrinsic_value := intrinsic_value;
     extrinsic_value := extrinsic_value; time := time;
     DTE := toordinal expiration - toordinal today |}.

End Builtins.

End OptionData.

(** ** [data_objects.Asset] *)

Module Asset.

(** [_historical_data_updated] is not set by [__init__]: the two historical
    setters create it.  [None] there stands for the missing attribute.
    [_contract] and [_option_chain] are set to [None] and not touched by the
    methods below. *)
Record t := {
  code : string;
  asset_type : AssetType;
  data_source : DataSource;
  currency : Currency;
  _data : option AssetData.t;
  _historical_data : option (list BarData.t);
  _historical_IV_data : option (list BarData.t);
  _historical_updated : option Py.datetime;
  _historical_IV_updated : option Py.datetime;
  _historical_data_updated : option Py.datetime
}.

Section Settings.

(** [optopus.settings.CURRENCY] *)
Variable CURRENCY : Currency.

(** An omitted [data_source] or [currency] argument is [None] here and
    takes the default of the signature. *)
Definition __init__ (code : string) (asset_type : AssetType)
    (data_source : option DataSource) (currency : option Currency) : t :=
  let data_source := default IB data_source in
  let currency := default CURRENCY currency in
  {| code := code;
     asset_type := asset_type;
     data_source := data_source;
     currency := CURRENCY;
     _data := None;
     _historical_data := None;
     _historical_IV_data := None;
     _historical_updated := None;
     _historical_IV_updated := None;
     _historical_data_updated := None |}.

End Settings.

Definition current (self : t) : option AssetData.t := _data self.

Definition set_current (self : t) (values : AssetData.t) : t :=
  {| code := code self; asset_type := asset_type self;
     data_source := data_source self; currency := currency self;
     _data := Some values;
     _historical_data := _historical_data self;
     _historical_IV_data := _historical_IV_data self;
     _historical_updated := _historical_updated self;
     _historical_IV_updated := _historical_IV_updated self;
     _historical_data_updated := _historical_data_updated self |}.

Definition historical (self : t) : option (list BarData.t) :=
  _historical_data self.

(** [now] is the value of [datetime.datetime.now()] at the call. *)
Definition set_historical (self : t) (values : list BarData.t)
    (now : Py.datetime) : t :=
  {| code := code self; asset_type := asset_type self;
     data_source := data_source self; currency := currency self;
     _data := _data self;
     _historical_data := Some values;
     _historical_IV_data := _historical_IV_data self;
     _historical_updated := _historical_updated self;
     _historical_IV_updated := _historical_IV_updated self;
     _historical_data_updated := Some now |}.

Definition historical_IV (self : t) : option (list BarData.t) :=
  _historical_IV_data self.

Definition set_historical_IV (self : t) (values : list BarData.t)
    (now : Py.datetime) : t :=
  {| code := code self; asset_type := asset_type self;
     data_source := data_source self; currency := currency self;
     _data := _data self;
     _historical_data := _historical_data self;
     _historical_IV_data := Some values;
     _historical_updated := _historical_updated self;
     _historical_IV_updated := _historical_IV_updated self;
     _historical_data_updated := Some now |}.

Definition historical_is_updated (self : t) (now : Py.datetime) : bool :=
  match _historical_updated self with
  | Some updated =>
      let delta := now - updated in
      if negb (Py.days delta =? 0) then true else false
  | None => false
  end.

Definition historical_IV_is_updated (self : t) (now : Py.datetime) : bool :=
  match _historical_IV_updated self with
  | Some updated =>
      let delta := now - updated in
      if negb (Py.days delta =? 0) then true else false
  | None => false
  end.

(** What a client can do to an [Asset] through its property setters. *)
Inductive assignment :=
| Assign_current (values : AssetData.t)
| Assign_historical (values : list BarData.t) (now : Py.datetime)
| Assign_historical_IV (values : list BarData.t) (now : Py.datetime).

Definition assign (self : t) (a : assignment) : t :=
  match a with
  | Assign_current v => set_current self v
  | Assign_historical v now => set_historical self v now
  | Assign_historical_IV v now => set_historical_IV self v now
  end.

Definition assign_all (self : t) (l : list assignment) : t :=
  foldl assign self l.

(** The property [market_price]: [self._data.market_price], where [_data]
    is [None] until a snapshot is assigned. *)
Definition market_price (self : t) : result float :=
  match _data self with
  | Some data => Ok (AssetData.market_price data)
  | None => Raise (AttributeError "market_price")
  end.

End Asset.

(** ** [data_objects.PositionData] *)

Module PositionData.

(** An attribute holds what the constructor was given, so [ownership],
    [expiration] and [right] may hold [None].  The attributes that
    [__init__] sets to [None] ([option_price], [trade_price], [strategy],
    [rol], ...) are read by none of the methods below and are left out. *)
Record t := {
  code : string;
  asset_type : AssetType;
  ownership : option OwnershipType;
  expiration : option Py.date;
  strike : float;
  right : option RightType;
  quantity : Z;
  position_id : string;
  average_cost : option float
}.

(** [x.attr] where [x] may be [None]. *)
Definition attr {A B} (x : option A) (name : string) (get : A -> B) : result B :=
  match x with
  | Some a => Ok (get a)
  | None => Raise (AttributeError name)
  end.

Section Builtins.

(** [str(round(x, 1))] on a float and [d.strftime('%d-%m-%Y')] on a date:
    builtins of Python, total on these types. *)
Variable str_round1 : float -> string.
Variable strftime_dmY : Py.date -> string.

Definition __init__ (code : string) (asset_type : AssetType)
    (ownership : option OwnershipType) (quantity : Z)
    (expiration : option Py.date) (strike : float)
    (right : option RightType) (average_cost : option float) : result t :=
  ownership_value ← attr ownership "value" OwnershipType_value;
  right_value ← attr right "value" RightType_value;
  let strike_str := str_round1 strike in
  expiration_str ← attr expiration "strftime" strftime_dmY;
  let position_id :=
    code +:+ " " +:+ ownership_value +:+ " " +:+ right_value +:+ " "
         +:+ strike_str +:+ " " +:+ expiration_str in
  mret {| code := code; asset_type := asset_type; ownership := ownership;
          expiration := expiration; strike := strike; right := right;
          quantity := quantity; position_id := position_id;
          average_cost := average_cost |}.

End Builtins.

End PositionData.

(** ** [data_objects.OrderData] *)

Module OrderData.

Record t := {
  asset : Asset.t;
  rol : OrderRol;
  ownership : OwnershipType;
  quantity : Z;
  price : float;
  order_type : OrderType;
  expiration : Py.date;
  strike : float;
  right : RightType;
  created : Py.datetime;
  updated : Py.datetime;
  status : OrderStatus;
  order_id : string
}.

Section Builtins.

(** [t.strftime('%d-%m-%Y %H:%M:%S')] on a datetime. *)
Variable strftime_dmYHMS : Py.datetime -> string.

(** [now] is the value of [datetime.datetime.now()] at the call; the
    [contract] argument is stored and not read here. *)
Definition __init__ (asset : Asset.t) (rol : OrderRol)
    (ownership : OwnershipType) (quantity : Z) (price : float)
    (order_type : OrderType) (expiration : Py.date) (strike : float)
    (right : RightType) (reference : string) (now : Py.datetime) : t :=
  let created := now in
  {| asset := asset; rol := rol; ownership := ownership;
     quantity := quantity; price := price; order_type := order_type;
     expiration := expiration; strike := strike; right := right;
     created := created;
     updated := created;
     status := APIPending;
     order_id := reference +:+ "_" +:+ OrderRol_value rol +:+ " "
                   +:+ strftime_dmYHMS created |}.

End Builtins.

(** No method of [OrderData] assigns [status]; a client that did would do
    this. *)
Definition with_status (o : t) (s : OrderStatus) : t :=
  {| asset := asset o; rol := rol o; ownership := ownership o;
     quantity := quantity o; price := price o; order_type := order_type o;
     expiration := expiration o; strike := strike o; right := right o;
     created := created o; updated := updated o; status := s;
     order_id := order_id o |}.

End OrderData.

(** ** [data_objects.TradeData] *)

Module TradeData.

Record t := {
  order_id : string;
  status : OrderStatus;
  remaining : Z;
  commission : float
}.

Definition __init__ (order_id : string) (status : OrderStatus)
    (remaining : Z) (commission : float) : t :=
  {| order_id := order_id; status := status; remaining := remaining;
     commission := commission |}.

(** The parameters of [__init__] after [self]; none has a default. *)
Definition parameters : list string :=
  ["order_id"; "status"; "remaining"; "commission"].

End TradeData.

(** ** [data_objects.Leg] *)

Module Leg.

(** [order_price] and [quantity] are [None] after [__init__] and set later
    by the order manager. *)
Record t := {
  asset : Asset.t;
  ownership : OwnershipType;
  right : RightType;
  expiration : Py.date;
  strike : float;
  multiplier : Z;
  strategy_price : float;
  ratio : Z;
  order_price : option float;
  quantity : option Z;
  currency : Currency;
  take_profit_factor : float;
  stop_loss_factor : float;
  created : Py.datetime;
  leg_id : string
}.

Section Builtins.

Variable str_round1 : float -> string.
Variable strftime_dmY : Py.date -> string.

Definition __init__ (asset : Asset.t) (ownership : OwnershipType)
    (right : RightType) (expiration : Py.date) (strike : float)
    (multiplier : Z) (strategy_price : float) (ratio : Z)
    (currency : Currency) (take_profit_factor stop_loss_factor : float)
    (now : Py.datetime) : t :=
  {| asset := asset; ownership := ownership; right := right;
     expiration := expiration; strike := strike; multiplier := multiplier;
     strategy_price := strategy_price; ratio := ratio;
     order_price := None; quantity := None; currency := currency;
     take_profit_factor := take_profit_factor;
     stop_loss_factor := stop_loss_factor;
     created := now;
     leg_id := Asset.code asset +:+ " " +:+ OwnershipType_value ownership
                 +:+ " " +:+ RightType_value right +:+ " "
                 +:+ str_round1 strike +:+ " " +:+ strftime_dmY expiration |}.

End Builtins.

End Leg.

(** ** [data_objects.Strategy] *)

Definition StrategyType_value (s : StrategyType) : string :=
  match s with SellNakedPut => "SNP" end.

Definition OptionMoneyness_value (m : OptionMoneyness) : string :=
  match m with
  | AtTheMoney => "ATM"
  | InTheMoney => "ITM"
  | OutTheMoney => "OTM"
  | NA => "NA"
  end.

Module Strategy.

Record t := {
  asset : Asset.t;
  strategy_type : StrategyType;
  legs : gmap string Leg.t;
  created : Py.datetime;
  updated : Py.datetime;
  strategy_id : string
}.

Section Builtins.

Variable strftime_dmYHMS : Py.datetime -> string.

(** [now] is the value of [datetime.datetime.now()] at the call. *)
Definition __init__ (asset : Asset.t) (strategy_type : StrategyType)
    (legs : list Leg.t) (now : Py.datetime) : t :=
  let self_legs : gmap string Leg.t := ∅ in
  let self_legs :=
    foldl (fun d leg => <[Leg.leg_id leg := leg]> d) self_legs legs in
  let created := now in
  {| asset := asset; strategy_type := strategy_type; legs := self_legs;
     created := created; updated := created;
     strategy_id := Asset.code asset +:+ " " +:+ strftime_dmYHMS created |}.

End Builtins.

End Strategy.

(** ** The objects of [ib_insync] that the adapter reads and builds *)

Module Contract.

Record t := {
  secType : string;
  conId : Z;
  symbol : string;
  lastTradeDateOrContractMonth : string;
  strike : float;
  right : string;
  exchange : string;
  currency : string
}.

(** [Index(symbol, currency=...)] *)
Definition Index (symbol currency : string) : t :=
  {| secType := "IND"; conId := 0; symbol := symbol;
     lastTradeDateOrContractMonth := ""; strike := 0%float; right := "";
     exchange := ""; currency := currency |}.

(** [Stock(symbol, exchange=..., currency=...)] *)
Definition Stock (symbol exchange currency : string) : t :=
  {| secType := "STK"; conId := 0; symbol := symbol;
     lastTradeDateOrContractMonth := ""; strike := 0%float; right := "";
     exchange := exchange; currency := currency |}.

End Contract.

Module IBPosition.

(** The [Position] tuple of a position event. *)
Record t := {
  account : string;
  contract : Contract.t;
  position : Z;
  avgCost : float
}.

End IBPosition.

Module IBOrder.

(** [sys.float_info.max], the value of an unset price. *)
Definition UNSET_DOUBLE : float := 0x1.fffffffffffffp+1023%float.

Record t := {
  orderType : string;
  action : string;
  totalQuantity : Z;
  lmtPrice : float;
  auxPrice : float;
  orderRef : string;
  orderId : Z;
  transmit : bool;
  parentId : Z;
  volatility : float
}.

(** [LimitOrder(action, totalQuantity, lmtPrice, orderRef=..., orderId=...,
    transmit=..., parentId=...)]; an omitted [parentId] is 0. *)
Definition LimitOrder (action : string) (totalQuantity : Z) (lmtPrice : float)
    (orderRef : string) (orderId : Z) (transmit : bool) (parentId : Z) : t :=
  {| orderType := "LMT"; action := action; totalQuantity := totalQuantity;
     lmtPrice := lmtPrice; auxPrice := UNSET_DOUBLE; orderRef := orderRef;
     orderId := orderId; transmit := transmit; parentId := parentId;
     volatility := UNSET_DOUBLE |}.

(** [StopOrder(action, totalQuantity, stopPrice, ...)]: the trigger is the
    auxiliary price. *)
Definition StopOrder (action : string) (totalQuantity : Z) (stopPrice : float)
    (orderRef : string) (orderId : Z) (transmit : bool) (parentId : Z) : t :=
  {| orderType := "STP"; action := action; totalQuantity := totalQuantity;
     lmtPrice := UNSET_DOUBLE; auxPrice := stopPrice; orderRef := orderRef;
     orderId := orderId; transmit := transmit; parentId := parentId;
     volatility := UNSET_DOUBLE |}.

End IBOrder.

Module IBOrderStatus.

Record t := {
  status : string;
  filled : float;
  remaining : float;
  avgFillPrice : float
}.

End IBOrderStatus.

Module Trade.

Record t := {
  contract : Contract.t;
  order : IBOrder.t;
  orderStatus : IBOrderStatus.t
}.

End Trade.

Module AccountValue.

(** The [AccountValue] tuple of an account-value event. *)
Record t := {
  account : string;
  tag : string;
  value : string;
  currency : string
}.

End AccountValue.

Module OptionComputation.

(** The greeks that the model of the broker computes for an option. *)
Record t := {
  impliedVol : float;
  delta : float;
  optPrice : float;
  pvDividend : float;
  gamma : float;
  vega : float;
  theta : float;
  undPrice : float
}.

End OptionComputation.

Module Ticker.

Record t := {
  contract : Contract.t;
  time : option Py.datetime;
  bid : float;
  bidSize : float;
  ask : float;
  askSize : float;
  last : float;
  lastSize : float;
  volume : float;
  high : float;
  low : float;
  close : float;
  modelGreeks : option OptionComputation.t
}.

End Ticker.

(** The broker session [IB]: the sequence of request identifiers of its
    client and the orders placed so far, oldest first. *)
Module Broker.

Record t := {
  reqIdSeq : Z;
  placed : list (Contract.t * IBOrder.t)
}.

(** [client.getReqId()] *)
Definition getReqId (b : t) : Z * t :=
  (reqIdSeq b, {| reqIdSeq := reqIdSeq b + 1; placed := placed b |}).

(** [placeOrder(contract, order)] *)
Definition placeOrder (contract : Contract.t) (order : IBOrder.t) (b : t) : t :=
  {| reqIdSeq := reqIdSeq b; placed := (placed b ++ [(contract, order)])%list |}.

End Broker.

(** ** [ib_adapter.is_number] *)

(** [try: float(s) ... except Exception], with the builtin [float] as a
    parameter: any exception is caught. *)
Definition is_number (float_of_str : string -> result float) (s : string) : bool :=
  match float_of_str s with
  | Ok _ => true
  | Raise _ => false
  end.

(** ** [ib_adapter.IBTranslator] *)

Module IBTranslator.

Definition _account_translation : gmap string string :=
  list_to_map
    [("AccountCode", "id");
     ("AvailableFunds", "funds");
     ("BuyingPower", "buying_power");
     ("TotalCashValue", "cash");
     ("DayTradesRemaining", "max_day_trades");
     ("NetLiquidation", "net_liquidation");
     ("InitMarginReq", "initial_margin");
     ("MaintMarginReq", "maintenance_margin");
     ("ExcessLiquidity", "excess_liquidity");
     ("Cushion", "cushion");
     ("GrossPositionValue", "gross_position_value");
     ("EquityWithLoanValue", "equity_with_loan");
     ("SMA", "SMA")].

Definition _sectype_translation : gmap string AssetType :=
  list_to_map
    [("STK", Stock);
     ("OPT", Option_);
     ("FUT", Future);
     ("CASH", Future);
     ("IND", Index);
     ("CFD", CFD);
     ("BOND", Bond);
     ("CMDTY", Commodity);
     ("FOP", FuturesOption);
     ("FUND", MutualFund);
     ("IOPT", Warrant)].

Definition _right_translation : gmap string RightType :=
  list_to_map [("C", Call); ("P", Put)].

Definition _order_status_translation : gmap string OrderStatus :=
  list_to_map
    [("PendingSubmit", PendingSubmit);
     ("PendingCancel", PendingCancel);
     ("PreSubmitted", PreSubmitted);
     ("Submitted", Submitted);
     ("Cancelled", Cancelled);
     ("Filled", Filled);
     ("Inactive", Inactive)].

Definition _ownership_translation : gmap string OwnershipType :=
  list_to_map [("BUY", Buyer); ("SELL", Seller)].

Definition _strategy_translation : gmap string StrategyType :=
  list_to_map [("SNP", SellNakedPut)].

Definition _translate_account_tag (ib_tag : string) : option string :=
  let tag := None in
  let tag :=
    if Py.contains _account_translation ib_tag
    then _account_translation !! ib_tag else tag in
  tag.

(** The keyword arguments of the call [TradeData(...)] that ends
    [translate_trade]. *)
Record trade_kwargs := {
  kw_code : string;
  kw_asset_type : AssetType;
  kw_expiration : option Py.date;
  kw_ownership : OwnershipType;
  kw_quantity : float;
  kw_strike : float;
  kw_right : option RightType;
  kw_algorithm : string;
  kw_strategy_id : string;
  kw_strategy_type : StrategyType;
  kw_rol : string;
  kw_implied_volatility : float;
  kw_order_status : OrderStatus;
  kw_time : Py.datetime;
  kw_price : float;
  kw_data_source_id : Contract.t
}.

Section Translate.

(** [optopus.utils.parse_ib_date] turns the date string of the broker into
    a date, or raises; the translators are parametric in it. *)
Variable parse_ib_date : string -> result Py.date.

Variable str_round1 : float -> string.
Variable strftime_dmY : Py.date -> string.

(** The expiration of a contract, as both translators compute it. *)
Definition translate_expiration (expiration : string) : result (option Py.date) :=
  if Py.truthy expiration
  then d ← parse_ib_date expiration; mret (Some d)
  else mret None.

(** The right of a contract, as both translators compute it. *)
Definition translate_right (right : string) : result (option RightType) :=
  if Py.truthy right
  then r ← Py.getitem _right_translation right; mret (Some r)
  else mret None.

Definition translate_position (item : IBPosition.t) : result PositionData.t :=
  let contract := IBPosition.contract item in
  let code := Contract.symbol contract in
  asset_type ← Py.getitem _sectype_translation (Contract.secType contract);
  let ownership :=
    if 0 <? IBPosition.position item then Some Buyer
    else if IBPosition.position item <? 0 then Some Seller
    else None in
  expiration ← translate_expiration (Contract.lastTradeDateOrContractMonth contract);
  right ← translate_right (Contract.right contract);
  PositionData.__init__ str_round1 strftime_dmY
    code asset_type ownership (Z.abs (IBPosition.position item))
    expiration (Contract.strike contract) right
    (Some (IBPosition.avgCost item)).

(** The class [TradeData] that [translate_trade] builds takes keyword
    arguments that the [TradeData] of [data_objects.py] does not declare;
    its constructor is a parameter, and [TradeData_call] below is the one
    of [data_objects.py]. *)
Variable TradeData : Type.
Variable TradeData_init : trade_kwargs -> result TradeData.

(** [now] is the value of [datetime.datetime.now()] at the call. *)
Definition translate_trade (item : Trade.t) (now : Py.datetime) : result TradeData :=
  let contract := Trade.contract item in
  let order := Trade.order item in
  let code := Contract.symbol contract in
  asset_type ← Py.getitem _sectype_translation (Contract.secType contract);
  ownership ← Py.getitem _ownership_translation (IBOrder.action order);
  expiration ← translate_expiration (Contract.lastTradeDateOrContractMonth contract);
  right ← translate_right (Contract.right contract);
  ref ←
    (if Py.truthy (IBOrder.orderRef order)
     then
       '(algorithm, strategy_id, rol) ← Py.unpack3 (Py.split "-"%char (IBOrder.orderRef order));
       '(_, strategy_type, _, _) ← Py.unpack4 (Py.split "_"%char strategy_id);
       strategy_type ← Py.getitem _strategy_translation strategy_type;
       mret (Some algorithm, Some strategy_id, Some strategy_type, Some rol)
     else mret (None, None, None, None));
  let '(algorithm, strategy_id, strategy_type, rol) := ref in
  let volatility :=
    if negb (Py.eq (IBOrder.volatility order) 0%float)
    then IBOrder.volatility order else Py.nan in
  order_status ← Py.getitem _order_status_translation
                   (IBOrderStatus.status (Trade.orderStatus item));
  let price := IBOrderStatus.avgFillPrice (Trade.orderStatus item) in
  let quantity := IBOrderStatus.filled (Trade.orderStatus item) in
  let time := now in
  let data_source_id := contract in
  algorithm ← Py.local "algorithm" algorithm;
  strategy_id ← Py.local "strategy_id" strategy_id;
  strategy_type ← Py.local "strategy_type" strategy_type;
  rol ← Py.local "rol" rol;
  TradeData_init
    {| kw_code := code; kw_asset_type := asset_type;
       kw_expiration := expiration; kw_ownership := ownership;
       kw_quantity := quantity; kw_strike := Contract.strike contract;
       kw_right := right; kw_algorithm := algorithm;
       kw_strategy_id := strategy_id; kw_strategy_type := strategy_type;
       kw_rol := rol; kw_implied_volatility := volatility;
       kw_order_status := order_status; kw_time := time; kw_price := price;
       kw_data_source_id := data_source_id |}.

End Translate.

(** The keywords of the call [TradeData(...)] of [translate_trade], in the
    order in which they are written. *)
Definition trade_keywords : list string :=
  ["code"; "asset_type"; "expiration"; "ownership"; "quantity"; "strike";
   "right"; "algorithm"; "strategy_id"; "strategy_type"; "rol";
   "implied_volatility"; "order_status"; "time"; "price"; "data_source_id"].

(** That call on the [TradeData] of [data_objects.py], whose [__init__]
    has the parameters [order_id], [status], [remaining] and [commission]:
    [TypeError], with the keyword that is not expected; and were all
    keywords expected, [TypeError] for the arguments that are missing,
    since the call gives sixteen keywords and no other argument. *)
Definition TradeData_call (kw : trade_kwargs) : result TradeData.t :=
  match Py.unexpected_keyword TradeData.parameters trade_keywords with
  | Some k => Raise (TypeError k)
  | None => Raise (TypeError "missing")
  end.

Section Account.

Variable CURRENCY : Currency.

(** The builtin [float] on a text. *)
Variable float_of_str : string -> result float.

(** [optopus.money.Money] and [optopus.account.AccountItem] are classes of
    other modules; the translator is parametric in their constructors. *)
Variable Money : Type.
Variable Money_init : string -> Currency -> result Money.
Variable AccountItem : Type.
Variable AccountItem_init :
  string -> string -> option string -> option Money -> result AccountItem.

Definition _translate_value_currency (ib_value ib_currency : string)
    : result (option Money) :=
  let m := None in
  if String.eqb ib_currency (Currency_value CURRENCY)
  then m ← Money_init ib_value CURRENCY; mret (Some m)
  else mret m.

Definition translate_account_value (item : AccountValue.t)
    : result (option AccountItem) :=
  let opt_money : option Money := None in
  let opt_value : option string := None in
  let opt_tag := _translate_account_tag (AccountValue.tag item) in
  match opt_tag with
  | Some tag =>
      if Py.truthy tag then
        '(opt_value, opt_money) ←
          (if Py.truthy (AccountValue.currency item)
              && is_number float_of_str (AccountValue.value item)
           then
             if negb (String.eqb (AccountValue.currency item) "BASE")
             then
               opt_money ← _translate_value_currency
                             (AccountValue.value item)
                             (AccountValue.currency item);
               mret (opt_value, opt_money)
             else mret (opt_value, opt_money)
           else mret (Some (AccountValue.value item), opt_money));
        account_item ← AccountItem_init (AccountValue.account item) tag
                         opt_value opt_money;
        mret (Some account_item)
      else mret None
  | None => mret None
  end.

End Account.

End IBTranslator.

(** ** [ib_adapter.IBBrokerAdapter] *)

Module IBBrokerAdapter.

(** [_place_SNP] reads [order.action], [order.quantity], [order.price] and
    [order.reference] and compares the action with [OrderAction.Buy].  The
    enumeration [OrderAction] and the attributes [action] and [reference]
    belong to the order object that the adapter is written for; the
    [OrderData] of [data_objects.py] keeps the side as [ownership].  The
    record holds what [_place_SNP] reads. *)
Inductive OrderAction := Buy | Sell.

Record order := {
  action : OrderAction;
  quantity : Z;
  price : float;
  reference : string
}.

Definition OrderAction_eqb (a b : OrderAction) : bool :=
  match a, b with
  | Buy, Buy | Sell, Sell => true
  | _, _ => false
  end.

Definition _place_SNP (contract : Contract.t) (order : order)
    (broker : Broker.t) : Broker.t :=
  let action := if OrderAction_eqb (action order) Buy then "BUY" else "SELL" in
  let reverse_action := if String.eqb action "SELL" then "BUY" else "SELL" in
  let take_profit_price := PrimFloat.div (price order) 2%float in
  let stop_loss_price := PrimFloat.mul (price order) 2%float in
  let '(parent_id, broker) := Broker.getReqId broker in
  let parent :=
    IBOrder.LimitOrder action (quantity order) (price order)
      (reference order) parent_id false 0 in
  let '(take_profit_id, broker) := Broker.getReqId broker in
  let take_profit :=
    IBOrder.LimitOrder reverse_action (quantity order) take_profit_price
      (reference order) take_profit_id false (IBOrder.orderId parent) in
  let '(stop_loss_id, broker) := Broker.getReqId broker in
  let stop_loss :=
    IBOrder.StopOrder reverse_action (quantity order) stop_loss_price
      (reference order) stop_loss_id true (IBOrder.orderId parent) in
  let broker := Broker.placeOrder contract parent broker in
  let broker := Broker.placeOrder contract take_profit broker in
  let broker := Broker.placeOrder contract stop_loss broker in
  broker.

Section Events.

(** The state of the program that the callbacks act on, and the callbacks
    that [Optopus.start] stores in the [emit_...] slots. *)
Context {S : Type}.
Variable emit_position_event : PositionData.t -> S -> S.
Variable emit_new_order : S -> S.
Variable emit_order_status : S -> S.

Variable parse_ib_date : string -> result Py.date.
Variable str_round1 : float -> string.
Variable strftime_dmY : Py.date -> string.

(** A [PositionData] object is always true, so [if position:] passes
    whenever [translate_position] returns. *)
Definition _onPositionEvent (item : IBPosition.t) (s : S) : result S :=
  position ← IBTranslator.translate_position
               parse_ib_date str_round1 strftime_dmY item;
  mret (emit_position_event position s).

Definition _onNewOrderEvent (trade : Trade.t) (s : S) : S :=
  emit_new_order s.

Definition _onOrderStatusEvent (trade : Trade.t) (s : S) : S :=
  emit_order_status s.

End Events.

Section AccountEvents.

Context {S : Type}.
Variable CURRENCY : Currency.
Variable float_of_str : string -> result float.
Variable Money : Type.
Variable Money_init : string -> Currency -> result Money.
Variable AccountItem : Type.
Variable AccountItem_init :
  string -> string -> option string -> option Money -> result AccountItem.
Variable emit_account_item_event : AccountItem -> S -> S.

(** [if account_item:] passes for an item and not for [None]. *)
Definition _onAccountValueEvent (item : AccountValue.t) (s : S) : result S :=
  account_item ← IBTranslator.translate_account_value CURRENCY float_of_str
                   Money Money_init AccountItem AccountItem_init item;
  match account_item with
  | Some account_item => mret (emit_account_item_event account_item s)
  | None => mret s
  end.

End AccountEvents.

End IBBrokerAdapter.

(** ** [ib_adapter.chunks] *)

(** The chunks that the generator yields, in a list; the exception of
    [range] comes at the first [next]. *)
Definition chunks {A} (l : list A) (n : Z) : result (list (list A)) :=
  starts ← Py.range 0 (Py.len l) n;
  mret (map (fun i => Py.slice l i (i + n)) starts).

(** What the data adapter asks of the broker session. *)
Inductive session_call :=
| ReqTickers (contracts : list Contract.t)
| Sleep (seconds : Z).

(** ** [ib_adapter.IBDataAdapter] *)

Module IBDataAdapter.

Section Broker.

Variable CURRENCY : Currency.

(** [self._broker.qualifyContracts] applied to the contracts: the answer of the broker
    session. *)
Variable qualifyContracts : list Contract.t -> list Contract.t.

Definition requested_contracts (assets : list Asset.t) : list Contract.t :=
  foldl
    (fun contracts asset =>
       match Asset.asset_type asset with
       | Index =>
           (contracts ++ [Contract.Index (Asset.code asset) (Currency_value CURRENCY)])%list
       | Stock =>
           (contracts ++ [Contract.Stock (Asset.code asset) "SMART" (Currency_value CURRENCY)])%list
       | _ => contracts
       end)
    [] assets.

(** [{c.symbol: c for c in q_contracts}] *)
Definition by_symbol (q_contracts : list Contract.t) : gmap string Contract.t :=
  foldl (fun d c => <[Contract.symbol c := c]> d) ∅ q_contracts.

Definition initialize_assets (assets : list Asset.t)
    : result (gmap string Contract.t) :=
  let contracts := requested_contracts assets in
  let q_contracts := qualifyContracts contracts in
  if (length q_contracts =? length assets)%nat
  then Ok (by_symbol q_contracts)
  else Raise (ValueError "Error: ambiguous contracts").

End Broker.

Definition _calculate_moneyness
    (strike option_price underlying_price : float) (right : string)
    : result (OptionMoneyness * float * float) :=
  let intrinsic_value := 0%float in
  let extrinsic_value := 0%float in
  let moneyness : option OptionMoneyness := None in
  let '(intrinsic_value, moneyness) :=
    if String.eqb right "C" then
      (Py.max 0%float (PrimFloat.sub underlying_price strike),
       Some (if Py.gt underlying_price strike then InTheMoney
             else if Py.lt underlying_price strike then OutTheMoney
             else InTheMoney))
    else (intrinsic_value, moneyness) in
  let '(intrinsic_value, moneyness) :=
    if String.eqb right "P" then
      (Py.max 0%float (PrimFloat.sub strike underlying_price),
       Some (if Py.lt underlying_price strike then InTheMoney
             else if Py.gt underlying_price strike then OutTheMoney
             else InTheMoney))
    else (intrinsic_value, moneyness) in
  let extrinsic_value := PrimFloat.sub option_price intrinsic_value in
  moneyness ← Py.local "moneyness" moneyness;
  mret (moneyness, intrinsic_value, extrinsic_value).

Section Options.

(** [self._broker.reqTickers] applied to the contracts of a chunk. *)
Variable reqTickers : list Contract.t -> list Ticker.t.
Variable parse_ib_date : string -> result Py.date.
Variable toordinal : Py.date -> Z.

(** The first loop of [create_options]: one request for each chunk of 50
    contracts and a pause of one second after it.  The calls are written
    to the log of the session. *)
Definition request_tickers (q_contracts : list Contract.t)
    (log : list session_call) : result (list Ticker.t * list session_call) :=
  qs ← chunks q_contracts 50;
  mret (foldl
          (fun '(tickers, log) q =>
             ((tickers ++ reqTickers q)%list,
              (log ++ [ReqTickers q; Sleep 1])%list))
          ([], log) qs).

(** The body of the second loop, for one ticker. *)
Definition create_option (today : Py.date) (t : Ticker.t) : result OptionData.t :=
  let contract := Ticker.contract t in
  let greeks := Ticker.modelGreeks t in
  let from_greeks (get : OptionComputation.t -> float) : float :=
    match greeks with
    | Some g => get g
    | None => Py.nan
    end in
  let delta := from_greeks OptionComputation.delta in
  let gamma := from_greeks OptionComputation.gamma in
  let theta := from_greeks OptionComputation.theta in
  let vega := from_greeks OptionComputation.vega in
  let option_price := from_greeks OptionComputation.optPrice in
  let implied_volatility := from_greeks OptionComputation.impliedVol in
  let underlying_price := from_greeks OptionComputation.undPrice in
  let underlying_dividends := from_greeks OptionComputation.pvDividend in
  '(moneyness, intrinsic_value, extrinsic_value) ←
    match greeks with
    | Some _ =>
        if Py.truthy_float underlying_price
        then _calculate_moneyness (Contract.strike contract) option_price
               underlying_price (Contract.right contract)
        else mret (NA, Py.nan, Py.nan)
    | None => mret (NA, Py.nan, Py.nan)
    end;
  expiration ← parse_ib_date (Contract.lastTradeDateOrContractMonth contract);
  mret (OptionData.__init__ toordinal
          (Contract.symbol contract) expiration (Contract.strike contract)
          (if String.eqb (Contract.right contract) "C" then Call else Put)
          (Ticker.high t) (Ticker.low t) (Ticker.close t)
          (Ticker.bid t) (Ticker.bidSize t) (Ticker.ask t) (Ticker.askSize t)
          (Ticker.last t) (Ticker.lastSize t)
          option_price (Ticker.volume t) delta gamma theta vega
          implied_volatility underlying_price underlying_dividends
          (OptionMoneyness_value moneyness) intrinsic_value extrinsic_value
          (Ticker.time t) today).

(** [today] is the date of [datetime.datetime.now()] while the options are
    built.  The log of the session is returned next to the result: the
    requests have been made when the second loop raises. *)
Definition create_options (today : Py.date) (q_contracts : list Contract.t)
    (log : list session_call)
    : result (list OptionData.t) * list session_call :=
  match request_tickers q_contracts log with
  | Ok (tickers, log) => (Py.for_each (create_option today) tickers, log)
  | Raise e => (Raise e, log)
  end.

End Options.

End IBDataAdapter.

(** ** The state machine of order statuses

    Modelled from the spec: the sources hold the enumeration [OrderStatus]
    and no transition between its members.  Section 4.2: pending-submission,
    then submitted-to-venue, then pre-submitted or submitted, then filled,
    cancelled or inactive; api-cancelled from any state that is not
    terminal; pending-cancel on the way to cancelled.  [APIPending], the
    status of a new [OrderData], is pending-submission and [PendingSubmit]
    is submitted-to-venue. *)

Module StatusMachine.

(** Modelled from the spec: the terminal states are filled, cancelled and
    inactive. *)
Definition terminal (s : OrderStatus) : bool :=
  match s with
  | Filled | Cancelled | Inactive => true
  | _ => false
  end.

(** Modelled from the spec: the legal transitions of section 4.2, one
    step at a time. *)
Definition step (a b : OrderStatus) : bool :=
  match a, b with
  | APIPending, PendingSubmit => true
  | PendingSubmit, (PreSubmitted | Submitted) => true
  | (PreSubmitted | Submitted), (Filled | Cancelled | Inactive) => true
  | (APIPending | PendingSubmit | PreSubmitted | Submitted | PendingCancel),
    APICancelled => true
  | (APIPending | PendingSubmit | PreSubmitted | Submitted), PendingCancel => true
  | PendingCancel, Cancelled => true
  | _, _ => false
  end.

(** Forward: reachable in any number of steps, none included. *)
Definition forward : OrderStatus -> OrderStatus -> Prop :=
  rtc (fun a b => step a b = true).

Definition statuses : list OrderStatus :=
  [APIPending; PendingSubmit; PendingCancel; PreSubmitted; Submitted;
   APICancelled; Cancelled; Filled; Inactive].

Definition eqb (a b : OrderStatus) : bool :=
  match a, b with
  | APIPending, APIPending | PendingSubmit, PendingSubmit
  | PendingCancel, PendingCancel | PreSubmitted, PreSubmitted
  | Submitted, Submitted | APICancelled, APICancelled
  | Cancelled, Cancelled | Filled, Filled | Inactive, Inactive => true
  | _, _ => false
  end.

(** [b] is reached from [a] in at most [n] steps. *)
Fixpoint reachable_within (n : nat) (a b : OrderStatus) : bool :=
  eqb a b ||
  match n with
  | O => false
  | S n => existsb (fun c => step a c && reachable_within n c b) statuses
  end.

(** The test of section 8: the new status must be reachable from the old
    one.  A path that visits no status twice has at most eight steps. *)
Definition reachable (a b : OrderStatus) : bool :=
  reachable_within 8 a b.

End StatusMachine.

(** ** The ledger of orders

    Modelled from the spec: [optopus.data_manager.DataManager], whose
    [_commission_report] receives the trades that the broker adapter
    translates, is not among the sources.  Of the ledger of section 3 it
    keeps the orders by identifier, and the anomalies logged so far. *)

Module DataManager.

(** Modelled from the spec: the anomalies of section 7 that a trade event
    can give. *)
Inductive anomaly :=
| OrphanedTrade (trade : TradeData.t)
| StateMachineViolation (trade : TradeData.t) (held : OrderStatus).

(** Modelled from the spec: the orders of the ledger, by identifier. *)
Record t := {
  orders : gmap string OrderData.t;
  anomalies : list anomaly
}.

(** Modelled from the spec: section 4.4, on a trade event locate the order
    by identifier; if missing, record an orphaned-trade anomaly without
    mutating the ledger; if found, advance its status per section 4.2.
    Sections 4.2, 7 and 8: the new status must be reachable from the old
    one, else the event is discarded with a logged anomaly and the status
    in the ledger is unchanged.  What a fill writes to the leg of the
    order is left out. *)
Definition _commission_report (trade : TradeData.t) (self : t) : t :=
  match orders self !! TradeData.order_id trade with
  | None =>
      {| orders := orders self;
         anomalies := (anomalies self ++ [OrphanedTrade trade])%list |}
  | Some order =>
      if StatusMachine.reachable (OrderData.status order)
           (TradeData.status trade)
      then
        {| orders :=
             <[TradeData.order_id trade :=
                 OrderData.with_status order (TradeData.status trade)]>
               (orders self);
           anomalies := anomalies self |}
      else
        {| orders := orders self;
           anomalies :=
             (anomalies self
                ++ [StateMachineViolation trade (OrderData.status order)])%list |}
  end.

End DataManager.

(** ** [optopus.Optopus] *)

Module Optopus.

(** Of the attributes of [Optopus], the data manager that [start] creates
    is the one that the events of orders reach. *)
Record t := {
  _data_manager : DataManager.t
}.

(** [pass] *)
Definition _new_order (self : t) : t := self.

(** [pass] *)
Definition _order_status (self : t) : t := self.

(** [start] stores [self._new_order], [self._order_status] and
    [self._data_manager._commission_report] in the [emit_new_order],
    [emit_order_status] and [emit_commission_report] slots of the broker
    adapter.  The first two are run by [_onNewOrderEvent] and
    [_onOrderStatusEvent], which drop the trade of the session; the third
    is called with a [TradeData]. *)
Inductive event :=
| NewOrderEvent (trade : Trade.t)
| OrderStatusEvent (trade : Trade.t)
| CommissionReport (trade_data : TradeData.t).

Definition handle (self : t) (ev : event) : t :=
  match ev with
  | NewOrderEvent trade =>
      IBBrokerAdapter._onNewOrderEvent _new_order trade self
  | OrderStatusEvent trade =>
      IBBrokerAdapter._onOrderStatusEvent _order_status trade self
  | CommissionReport trade_data =>
      {| _data_manager :=
           DataManager._commission_report trade_data (_data_manager self) |}
  end.

Definition handle_all (self : t) (evs : list event) : t :=
  foldl handle self evs.

Definition orders (self : t) : gmap string OrderData.t :=
  DataManager.orders (_data_manager self).

End Optopus.

(** * The specification's side, and sample inputs *)

(** ** The market price as the specification words it *)

Module MarketPriceSpec.

(** The precedence as the specification words it.  A value is available
    when it is neither a NaN nor [-1]; a midpoint is valid when it is not a
    NaN. *)
Definition available (x : float) : bool :=
  negb (Py.is_nan x) && negb (Py.eq x (-1)%float).

Definition market_price (midpoint bid last ask close : float) : float :=
  let in_range := Py.le bid last && Py.le last ask in
  if (in_range || Py.is_nan midpoint) && available last then last
  else if available midpoint then midpoint
  else close.

End MarketPriceSpec.

(** ** Sample snapshots *)

Definition snapshot_at (t : Py.datetime) (last : float) : AssetData.t :=
  AssetData.of_quote "SPY" Stock 7 1 5 last (Some t).

(** ** The bracket as the specification words it *)

Module BracketSpec.

Definition reverse (side : string) : string :=
  if String.eqb side "BUY" then "SELL" else "BUY".

(** Take-profit: reverse side, price = entry price times the take-profit
    factor of the leg; stop-loss: reverse side, trigger = entry price times
    the stop-loss factor of the leg; the three orders carry the quantity of
    the leg. *)
Definition as_specified (leg : Leg.t) (entry : IBBrokerAdapter.order)
    (parent take_profit stop_loss : IBOrder.t) : Prop :=
  IBOrder.action take_profit = reverse (IBOrder.action parent) /\
  IBOrder.lmtPrice take_profit
  = PrimFloat.mul (IBBrokerAdapter.price entry) (Leg.take_profit_factor leg) /\
  IBOrder.action stop_loss = reverse (IBOrder.action parent) /\
  IBOrder.auxPrice stop_loss
  = PrimFloat.mul (IBBrokerAdapter.price entry) (Leg.stop_loss_factor leg) /\
  Leg.quantity leg = Some (IBOrder.totalQuantity parent) /\
  Leg.quantity leg = Some (IBOrder.totalQuantity take_profit) /\
  Leg.quantity leg = Some (IBOrder.totalQuantity stop_loss).

End BracketSpec.

(** ** The moneyness as the specification words it *)

Module MoneynessSpec.

(** Call: in-the-money if [U >= K], else out-of-the-money. *)
Definition call (K U : float) : OptionMoneyness :=
  if Py.le K U then InTheMoney else OutTheMoney.

(** Put: in-the-money if [U <= K], else out-of-the-money. *)
Definition put (K U : float) : OptionMoneyness :=
  if Py.le U K then InTheMoney else OutTheMoney.

End MoneynessSpec.

(** ** Sample contracts, legs, positions and trades *)

Definition USD : Currency := {| Currency_value := "USD" |}.

Definition SPY : Asset.t := Asset.__init__ USD "SPY" Stock None None.

Definition SPY_put : Contract.t :=
  {| Contract.secType := "OPT"; Contract.conId := 0; Contract.symbol := "SPY";
     Contract.lastTradeDateOrContractMonth := "20181019";
     Contract.strike := 250%float; Contract.right := "P";
     Contract.exchange := "SMART"; Contract.currency := "USD" |}.

(** A short put on SPY sold at 2.00, one contract, with the given factors. *)
Definition short_put (take_profit_factor stop_loss_factor : float) : Leg.t :=
  {| Leg.asset := SPY; Leg.ownership := Seller; Leg.right := Put;
     Leg.expiration := Py.Date 2018 10 19; Leg.strike := 250%float;
     Leg.multiplier := 100; Leg.strategy_price := 2%float; Leg.ratio := 1;
     Leg.order_price := Some 2%float; Leg.quantity := Some 1;
     Leg.currency := USD;
     Leg.take_profit_factor := take_profit_factor;
     Leg.stop_loss_factor := stop_loss_factor;
     Leg.created := 0;
     Leg.leg_id := "SPY SELL P 250.0 19-10-2018" |}.

Definition short_put_entry : IBBrokerAdapter.order :=
  {| IBBrokerAdapter.action := IBBrokerAdapter.Sell;
     IBBrokerAdapter.quantity := 1;
     IBBrokerAdapter.price := 2%float;
     IBBrokerAdapter.reference := "ref" |}.

Definition fresh_broker : Broker.t :=
  {| Broker.reqIdSeq := 1; Broker.placed := [] |}.

(** A position event for the put, and one for a combination, whose
    instrument type [BAG] the translator does not list. *)
Definition put_position (position : Z) : IBPosition.t :=
  {| IBPosition.account := "DU1"; IBPosition.contract := SPY_put;
     IBPosition.position := position; IBPosition.avgCost := 200%float |}.

Definition with_secType (c : Contract.t) (secType : string) : Contract.t :=
  {| Contract.secType := secType; Contract.conId := Contract.conId c;
     Contract.symbol := Contract.symbol c;
     Contract.lastTradeDateOrContractMonth := "";
     Contract.strike := Contract.strike c; Contract.right := "";
     Contract.exchange := Contract.exchange c;
     Contract.currency := Contract.currency c |}.

Definition bag_position : IBPosition.t :=
  {| IBPosition.account := "DU1";
     IBPosition.contract := with_secType SPY_put "BAG";
     IBPosition.position := 1; IBPosition.avgCost := 200%float |}.

(** A trade on a stock contract with the given instrument type, action and
    status, and no order reference. *)
Definition stock_trade (secType action status : string) : Trade.t :=
  {| Trade.contract := with_secType SPY_put secType;
     Trade.order := IBOrder.LimitOrder action 1 2%float "" 7 true 0;
     Trade.orderStatus :=
       {| IBOrderStatus.status := status; IBOrderStatus.filled := 0%float;
          IBOrderStatus.remaining := 1%float;
          IBOrderStatus.avgFillPrice := 0%float |} |}.

(** A date parser that knows the expiration of the sample put. *)
Definition parse_20181019 (s : string) : result Py.date :=
  if String.eqb s "20181019" then Ok (Py.Date 2018 10 19)
  else Raise (ValueError "date").

(** ** The broker session, as [initialize_assets] relies on it

    [qualifyContracts] answers with those of the contracts it was given
    that it could qualify, in their order, the symbol of each unchanged. *)

Definition answers_requested
    (qualifyContracts : list Contract.t -> list Contract.t) : Prop :=
  forall contracts : list Contract.t,
    sublist (map Contract.symbol (qualifyContracts contracts))
            (map Contract.symbol contracts).

(** The contract that [initialize_assets] requests for one asset, if any. *)
Definition contract_of (CURRENCY : Currency) (asset : Asset.t) : list Contract.t :=
  match Asset.asset_type asset with
  | Index => [Contract.Index (Asset.code asset) (Currency_value CURRENCY)]
  | Stock => [Contract.Stock (Asset.code asset) "SMART" (Currency_value CURRENCY)]
  | _ => []
  end.

Definition SPX : Asset.t := Asset.__init__ USD "SPX" Index None None.

(** A session that qualifies every contract, and one that qualifies none. *)
Definition qualify_all (contracts : list Contract.t) : list Contract.t :=
  contracts.

Definition qualify_none (contracts : list Contract.t) : list Contract.t :=
  [].

(** ** A ledger with one submitted order, and the events that report it
    as filled and then as submitted again *)

Definition submitted_order : OrderData.t :=
  OrderData.with_status
    (OrderData.__init__ (fun _ => "19-10-2018 10:00:00") SPY NewLeg Seller 1
       2%float Limit (Py.Date 2018 10 19) 250%float Put "ref" 0)
    Submitted.

Definition one_order_ledger : Optopus.t :=
  {| Optopus._data_manager :=
       {| DataManager.orders :=
            {[ OrderData.order_id submitted_order := submitted_order ]};
          DataManager.anomalies := [] |} |}.

Definition reports (status : OrderStatus) : Optopus.event :=
  Optopus.CommissionReport
    (TradeData.__init__ (OrderData.order_id submitted_order) status 0 1%float).

Definition status_event (status : string) : Optopus.event :=
  Optopus.OrderStatusEvent (stock_trade "OPT" "SELL" status).

(** ** More samples *)

(** A future, which [initialize_assets] requests no contract for. *)
Definition ES : Asset.t := Asset.__init__ USD "ES" Future None None.

(** The snapshot that the assignments of a list leave in [current]: the
    one assigned last, if any. *)
Definition last_current (l : list Asset.assignment) : option AssetData.t :=
  foldl
    (fun held x =>
       match x with
       | Asset.Assign_current values => Some values
       | _ => held
       end)
    None l.

(** SPY with historical data marked as updated at a given time. *)
Definition SPY_updated_at (t : Py.datetime) : Asset.t :=
  {| Asset.code := "SPY"; Asset.asset_type := Stock; Asset.data_source := IB;
     Asset.currency := USD; Asset._data := None;
     Asset._historical_data := Some []; Asset._historical_IV_data := Some [];
     Asset._historical_updated := Some t;
     Asset._historical_IV_updated := Some t;
     Asset._historical_data_updated := None |}.

(** ** The orders of a session *)




(** A position in the stock itself. *)
Definition stock_position (position : Z) : IBPosition.t :=
  {| IBPosition.account := "DU1";
     IBPosition.contract := Contract.Stock "SPY" "SMART" "USD";
     IBPosition.position := position; IBPosition.avgCost := 270%float |}.

(** A filled sale of the sample put, with a reference of three parts. *)
Definition referenced_trade : Trade.t :=
  {| Trade.contract := SPY_put;
     Trade.order :=
       IBOrder.LimitOrder "SELL" 1 2%float "dummy-SPY_SNP_19102018_100000-NL"
         7 true 0;
     Trade.orderStatus :=
       {| IBOrderStatus.status := "Filled"; IBOrderStatus.filled := 1%float;
          IBOrderStatus.remaining := 0%float;
          IBOrderStatus.avgFillPrice := 2%float |} |}.

(** ** Account values *)

(** A stand-in for the builtin [float]: a text that starts with a digit
    is a number. *)
Definition starts_with_digit (s : string) : bool :=
  match s with
  | String c _ =>
      (48 <=? Z.of_nat (Ascii.nat_of_ascii c))
      && (Z.of_nat (Ascii.nat_of_ascii c) <=? 57)
  | EmptyString => false
  end.

Definition float_of_digits (s : string) : result float :=
  if starts_with_digit s then Ok 1%float
  else Raise (ValueError "could not convert string to float").

(** Money and account items that hold what their constructors are given. *)
Definition plain_money : Type := string * Currency.

Definition plain_money_init (value : string) (currency : Currency)
    : result plain_money :=
  Ok (value, currency).

Definition plain_item : Type :=
  string * string * option string * option plain_money.

Definition plain_item_init (account tag : string) (value : option string)
    (money : option plain_money) : result plain_item :=
  Ok (account, tag, value, money).

Definition account_value (tag value currency : string) : AccountValue.t :=
  {| AccountValue.account := "DU1"; AccountValue.tag := tag;
     AccountValue.value := value; AccountValue.currency := currency |}.

(** ** Tickers *)

Definition put_ticker (contract : Contract.t)
    (greeks : option OptionComputation.t) : Ticker.t :=
  {| Ticker.contract := contract; Ticker.time := None;
     Ticker.bid := 1.75%float; Ticker.bidSize := 10%float;
     Ticker.ask := 2.25%float; Ticker.askSize := 10%float;
     Ticker.last := 2%float; Ticker.lastSize := 1%float;
     Ticker.volume := 100%float; Ticker.high := 2.5%float;
     Ticker.low := 1.5%float; Ticker.close := 2.125%float;
     Ticker.modelGreeks := greeks |}.

Definition put_greeks (undPrice : float) : OptionComputation.t :=
  {| OptionComputation.impliedVol := 0.25%float;
     OptionComputation.delta := (-0.25)%float;
     OptionComputation.optPrice := 2%float;
     OptionComputation.pvDividend := 0%float;
     OptionComputation.gamma := 0.0625%float;
     OptionComputation.vega := 0.125%float;
     OptionComputation.theta := (-0.0625)%float;
     OptionComputation.undPrice := undPrice |}.

(** A stand-in for [toordinal], and a contract with a right that is
    neither a call nor a put. *)
Definition day_count (d : Py.date) : Z :=
  365 * Py.year d + 31 * Py.month d + Py.day d.

Definition SPY_odd_right : Contract.t :=
  {| Contract.secType := "OPT"; Contract.conId := 0; Contract.symbol := "SPY";
     Contract.lastTradeDateOrContractMonth := "20181019";
     Contract.strike := 250%float; Contract.right := "?";
     Contract.exchange := "SMART"; Contract.currency := "USD" |}.

(** The historical data, and the historical implied volatility, that the
    assignments of a list leave in an asset: those assigned last. *)
Definition last_historical (l : list Asset.assignment) : option (list BarData.t) :=
  foldl
    (fun held x =>
       match x with
       | Asset.Assign_historical values _ => Some values
       | _ => held
       end)
    None l.

Definition last_historical_IV (l : list Asset.assignment)
    : option (list BarData.t) :=
  foldl
    (fun held x =>
       match x with
       | Asset.Assign_historical_IV values _ => Some values
       | _ => held
       end)
    None l.
(** * Properties *)

(** ** Comparison of floats *)

Section FloatOrder.

Lemma SFcompare_antisym (f1 f2 : spec_float) :
  SFcompare f2 f1 = option_map CompOpp (SFcompare f1 f2).
Proof.
  destruct f1 as [s1|s1| |s1 m1 e1], f2 as [s2|s2| |s2 m2 e2];
    try reflexivity;
    try (destruct s1; reflexivity);
    try (destruct s2; reflexivity);
    try (destruct s1, s2; reflexivity).
  cbn [SFcompare option_map].
  destruct s1, s2; try reflexivity;
    rewrite (Z.compare_antisym e1 e2);
    destruct (e1 ?= e2)%Z eqn:He; cbn [CompOpp]; try reflexivity.
  all: change (PosDef.Pos.compare_cont Eq m2 m1)
         with (Pos.compare_cont (CompOpp Eq) m2 m1);
       rewrite <- (Pos.compare_cont_antisym m1 m2 Eq); reflexivity.
Qed.

Lemma SFcompare_number (f1 f2 : spec_float) :
  f1 <> S754_nan -> f2 <> S754_nan -> is_Some (SFcompare f1 f2).
Proof.
  intros H1 H2.
  destruct f1, f2; try congruence; cbn [SFcompare]; eauto.
Qed.

Lemma is_nan_Prim2SF (x : float) :
  Py.is_nan x = false -> Prim2SF x <> S754_nan.
Proof.
  unfold Py.is_nan, PrimFloat.is_nan. rewrite FloatAxioms.eqb_spec.
  intros H E. rewrite E in H. discriminate H.
Qed.

(** On numbers, [a < b] is the negation of [b <= a]. *)
Lemma lt_not_le (a b : float) :
  Py.is_nan a = false -> Py.is_nan b = false ->
  Py.lt a b = negb (Py.le b a).
Proof.
  intros Ha Hb. unfold Py.lt, Py.le.
  rewrite FloatAxioms.ltb_spec, FloatAxioms.leb_spec. unfold SFltb, SFleb.
  rewrite (SFcompare_antisym (Prim2SF a) (Prim2SF b)).
  destruct (SFcompare_number _ _ (is_nan_Prim2SF a Ha) (is_nan_Prim2SF b Hb))
    as [c Hc].
  rewrite Hc. destruct c; reflexivity.
Qed.

(** [a < b] entails [a <= b]. *)
Lemma lt_le (a b : float) : Py.lt a b = true -> Py.le a b = true.
Proof.
  unfold Py.lt, Py.le. rewrite FloatAxioms.ltb_spec, FloatAxioms.leb_spec. unfold SFltb, SFleb.
  destruct (SFcompare (Prim2SF a) (Prim2SF b)) as [[]|]; congruence.
Qed.

(** [-1] is a number: a float equal to it is not a NaN. *)
Lemma eq_is_number (a b : float) : Py.eq a b = true -> Py.is_nan a = false.
Proof.
  unfold Py.eq, Py.is_nan, PrimFloat.is_nan. rewrite !FloatAxioms.eqb_spec. unfold SFeqb.
  destruct (Prim2SF a) eqn:Ea; cbn [SFcompare]; try discriminate.
  - reflexivity.
  - destruct s; reflexivity.
  - intros _. destruct s; rewrite Z.compare_refl, Pos.compare_cont_refl;
      reflexivity.
Qed.

Lemma is_nan_nan : Py.is_nan Py.nan = true.
Proof. reflexivity. Qed.

(** Two floats that are equal are equal for [==], unless they are NaN. *)
Lemma float_neq (a b : float) : Py.eq a b = false -> Py.is_nan a = false -> a <> b.
Proof.
  intros Hab Ha E. subst b.
  unfold Py.eq in Hab. unfold Py.is_nan, PrimFloat.is_nan in Ha.
  rewrite Hab in Ha. discriminate Ha.
Qed.

End FloatOrder.

(** ** C1: the market price of a snapshot *)


Section MarketPrice.

Variables (code : string) (asset_type : AssetType).
Variables (high low close bid bid_size ask ask_size last last_size volume : float).
Variable time : option Py.datetime.

Let q : AssetData.t :=
  AssetData.__init__ code asset_type high low close bid bid_size ask ask_size
    last last_size volume time.

(** Step 1 selects the last price: it lies within [bid, ask] or the
    midpoint is a NaN. *)
Let selected : bool :=
  Py.is_nan (AssetData.midpoint q) || (Py.le bid last && Py.le last ask).

(** C1 (as amended): the market price of a snapshot is the last price when
    step 1 selects it and it is neither a NaN nor -1; the previous close
    when step 1 selects a last price of exactly -1 (the midpoint is not
    tried); the midpoint when the last price is not selected or is a NaN,
    and the midpoint is neither a NaN nor -1; the previous close in the
    remaining case. *)
Theorem C1_market_price_precedence :
  (selected = true -> Py.is_nan last = false -> Py.eq last (-1)%float = false ->
     AssetData.market_price q = last) /\
  (selected = true -> Py.eq last (-1)%float = true ->
     AssetData.market_price q = close) /\
  (selected = false \/ Py.is_nan last = true ->
   Py.is_nan (AssetData.midpoint q) = false ->
   Py.eq (AssetData.midpoint q) (-1)%float = false ->
     AssetData.market_price q = AssetData.midpoint q) /\
  (selected = false \/ Py.is_nan last = true ->
   Py.is_nan (AssetData.midpoint q) = true \/
   Py.eq (AssetData.midpoint q) (-1)%float = true ->
     AssetData.market_price q = close).
Proof.
  subst selected q.
  cbn [AssetData.__init__ AssetData.market_price AssetData.midpoint].
  set (mid := PrimFloat.div (PrimFloat.add bid ask) 2%float).
  unfold AssetData.derive_market_price.
  repeat split.
  - intros -> Hn Hm. rewrite Hn, Hn, Hm. reflexivity.
  - intros -> Hm. rewrite (eq_is_number _ _ Hm), (eq_is_number _ _ Hm), Hm.
    reflexivity.
  - intros Hs Hn Hm.
    assert (Hmp : (if Py.is_nan
                        (if Py.is_nan mid || Py.le bid last && Py.le last ask
                         then last else Py.nan)
                   then mid
                   else if Py.is_nan mid || Py.le bid last && Py.le last ask
                        then last else Py.nan) = mid).
    { destruct Hs as [-> | Hl].
      - rewrite is_nan_nan. reflexivity.
      - destruct (Py.is_nan mid || Py.le bid last && Py.le last ask).
        + rewrite Hl. reflexivity.
        + rewrite is_nan_nan. reflexivity. }
    rewrite Hmp, Hn, Hm. reflexivity.
  - intros Hs Hm.
    assert (Hmp : (if Py.is_nan
                        (if Py.is_nan mid || Py.le bid last && Py.le last ask
                         then last else Py.nan)
                   then mid
                   else if Py.is_nan mid || Py.le bid last && Py.le last ask
                        then last else Py.nan) = mid).
    { destruct Hs as [-> | Hl].
      - rewrite is_nan_nan. reflexivity.
      - destruct (Py.is_nan mid || Py.le bid last && Py.le last ask).
        + rewrite Hl. reflexivity.
        + rewrite is_nan_nan. reflexivity. }
    rewrite Hmp. destruct Hm as [-> | ->]; [reflexivity|].
    rewrite orb_true_r. reflexivity.
Qed.

End MarketPrice.

(** The four cases of the precedence, each at a snapshot that takes it. *)
Lemma C1_market_price_precedence_witness :
  AssetData.market_price (AssetData.of_quote "SPY" Stock 7 1 5 3 None) = 3%float /\
  AssetData.market_price (AssetData.of_quote "SPY" Stock 7 (-1) 5 (-1) None) = 7%float /\
  AssetData.market_price (AssetData.of_quote "SPY" Stock 7 1 5 9 None) = 3%float /\
  AssetData.market_price (AssetData.of_quote "SPY" Stock 7 (-1) (-1) 9 None) = 7%float.
Proof.
  split; [|split; [|split]].
  - exact (proj1 (C1_market_price_precedence "SPY" Stock Py.nan Py.nan 7 1
                    Py.nan 5 Py.nan 3 Py.nan Py.nan None)
             eq_refl eq_refl eq_refl).
  - exact (proj1 (proj2 (C1_market_price_precedence "SPY" Stock Py.nan Py.nan 7
                           (-1) Py.nan 5 Py.nan (-1) Py.nan Py.nan None))
             eq_refl eq_refl).
  - exact (proj1 (proj2 (proj2 (C1_market_price_precedence "SPY" Stock Py.nan
                                  Py.nan 7 1 Py.nan 5 Py.nan 9 Py.nan Py.nan None)))
             (or_introl eq_refl) eq_refl eq_refl).
  - exact (proj2 (proj2 (proj2 (C1_market_price_precedence "SPY" Stock Py.nan
                                  Py.nan 7 (-1) Py.nan (-1) Py.nan 9 Py.nan Py.nan
                                  None)))
             (or_introl eq_refl) (or_intror eq_refl)).
Defined.

(** C1 (as stated) fails: with no bid (-1), an ask of 5 and a last price of
    -1, the last price lies within [bid, ask]; the specification discards it
    and takes the midpoint 2, the code takes the previous close 7. *)
Lemma C1_last_minus_one_skips_midpoint :
  let q := AssetData.of_quote "SPY" Stock 7 (-1) 5 (-1) None in
  AssetData.last q = (-1)%float /\
  AssetData.midpoint q = 2%float /\
  MarketPriceSpec.market_price (AssetData.midpoint q) (AssetData.bid q)
    (AssetData.last q) (AssetData.ask q) (AssetData.close q) = 2%float /\
  AssetData.market_price q = 7%float /\
  AssetData.market_price q <>
    MarketPriceSpec.market_price (AssetData.midpoint q) (AssetData.bid q)
      (AssetData.last q) (AssetData.ask q) (AssetData.close q).
Proof.
  cbv zeta. split; [|split; [|split; [|split]]]; try reflexivity.
  apply float_neq; reflexivity.
Qed.

(** Apart from a last price of -1 within [bid, ask] next to a midpoint that
    is available, the code and the wording of the specification agree. *)
Lemma market_price_agrees_elsewhere (midpoint bid last ask close : float) :
  (Py.eq last (-1)%float = true ->
   Py.le bid last && Py.le last ask = true ->
   MarketPriceSpec.available midpoint = false) ->
  AssetData.derive_market_price midpoint bid last ask close
  = MarketPriceSpec.market_price midpoint bid last ask close.
Proof.
  unfold AssetData.derive_market_price, MarketPriceSpec.market_price,
    MarketPriceSpec.available.
  intros H.
  pose proof (eq_is_number last (-1)%float) as Hx.
  pose proof (eq_is_number midpoint (-1)%float) as Hy.
  destruct (Py.is_nan midpoint) eqn:Hm, (Py.le bid last) eqn:Hb,
           (Py.le last ask) eqn:Ha;
    cbn [orb andb negb] in *; rewrite ?is_nan_nan;
    destruct (Py.is_nan last) eqn:Hl; cbn [orb andb negb] in *;
    rewrite ?Hm, ?Hl;
    destruct (Py.eq last (-1)%float) eqn:Hl1; cbn [orb andb negb] in *;
    destruct (Py.eq midpoint (-1)%float) eqn:Hm1; cbn [orb andb negb] in *;
    rewrite ?Hm, ?Hl, ?Hl1, ?Hm1; cbn [orb andb negb];
    try reflexivity;
    try (specialize (Hx eq_refl); discriminate Hx);
    try (specialize (Hy eq_refl); discriminate Hy);
    try (specialize (H eq_refl eq_refl); discriminate H).
Qed.

(** ** C3: moneyness, intrinsic and extrinsic value *)

(** Of two numbers of which one is a NaN neither is below, above or equal
    to the other. *)
Lemma is_nan_true (a : float) : Py.is_nan a = true -> Prim2SF a = S754_nan.
Proof.
  unfold Py.is_nan, PrimFloat.is_nan. rewrite FloatAxioms.eqb_spec.
  unfold SFeqb.
  destruct (Prim2SF a) as [s| s| |s m e]; cbn [SFcompare]; try reflexivity.
  - destruct s; discriminate.
  - destruct s; discriminate.
  - destruct s; rewrite Z.compare_refl, Pos.compare_cont_refl; discriminate.
Qed.

Lemma nan_unordered (a b : float) :
  Py.is_nan a = true \/ Py.is_nan b = true ->
  Py.lt a b = false /\ Py.le a b = false.
Proof.
  unfold Py.lt, Py.le.
  rewrite FloatAxioms.ltb_spec, FloatAxioms.leb_spec. unfold SFltb, SFleb.
  intros [H|H]; apply is_nan_true in H; rewrite H.
  - split; reflexivity.
  - destruct (Prim2SF a); split; reflexivity.
Qed.

(** C3 (as amended): for every strike [K], underlying price [U] and option
    price [P], the intrinsic value of a call is [max(0, U - K)] and that of
    a put [max(0, K - U)], and the extrinsic value is [P] minus the
    intrinsic value, whatever its sign; when [K] and [U] are numbers, a
    call is in the money exactly when [U >= K] and a put exactly when
    [U <= K], as the specification words it. *)
Theorem C3_moneyness (K U P : float) :
  (exists call put,
     IBDataAdapter._calculate_moneyness K P U "C" =
       Ok (call, Py.max 0%float (PrimFloat.sub U K),
           PrimFloat.sub P (Py.max 0%float (PrimFloat.sub U K))) /\
     IBDataAdapter._calculate_moneyness K P U "P" =
       Ok (put, Py.max 0%float (PrimFloat.sub K U),
           PrimFloat.sub P (Py.max 0%float (PrimFloat.sub K U)))) /\
  (Py.is_nan K = false -> Py.is_nan U = false ->
   IBDataAdapter._calculate_moneyness K P U "C" =
     Ok (MoneynessSpec.call K U, Py.max 0%float (PrimFloat.sub U K),
         PrimFloat.sub P (Py.max 0%float (PrimFloat.sub U K))) /\
   IBDataAdapter._calculate_moneyness K P U "P" =
     Ok (MoneynessSpec.put K U, Py.max 0%float (PrimFloat.sub K U),
         PrimFloat.sub P (Py.max 0%float (PrimFloat.sub K U)))).
Proof.
  unfold IBDataAdapter._calculate_moneyness, MoneynessSpec.call,
    MoneynessSpec.put.
  cbn [String.eqb Ascii.eqb Bool.eqb Py.local mbind result_bind mret result_ret].
  unfold Py.gt.
  change (PrimFloat.ltb K U) with (Py.lt K U).
  change (PrimFloat.ltb U K) with (Py.lt U K).
  split; [eexists _, _; split; reflexivity|].
  intros HK HU.
  rewrite (lt_not_le K U HK HU), (lt_not_le U K HU HK).
  split.
  - destruct (Py.le U K) eqn:HUK, (Py.le K U) eqn:HKU; cbn [negb];
      try reflexivity.
    pose proof (lt_not_le K U HK HU) as H. rewrite HUK in H. cbn [negb] in H.
    apply lt_le in H. congruence.
  - destruct (Py.le U K) eqn:HUK, (Py.le K U) eqn:HKU; cbn [negb];
      try reflexivity.
    pose proof (lt_not_le K U HK HU) as H. rewrite HUK in H. cbn [negb] in H.
    apply lt_le in H. congruence.
Qed.

(** The calls of the specification: in the money with intrinsic value 5,
    out of the money with intrinsic value 0; an extrinsic value below
    zero; and a put. *)
Lemma C3_moneyness_witness :
  IBDataAdapter._calculate_moneyness 100 7 105 "C" = Ok (InTheMoney, 5%float, 2%float) /\
  IBDataAdapter._calculate_moneyness 100 7 95 "C" = Ok (OutTheMoney, 0%float, 7%float) /\
  IBDataAdapter._calculate_moneyness 100 1 105 "C" = Ok (InTheMoney, 5%float, (-4)%float) /\
  IBDataAdapter._calculate_moneyness 100 7 95 "P" = Ok (InTheMoney, 5%float, 2%float).
Proof.
  split; [|split; [|split]].
  - exact (proj1 (proj2 (C3_moneyness 100 105 7) eq_refl eq_refl)).
  - exact (proj1 (proj2 (C3_moneyness 100 95 7) eq_refl eq_refl)).
  - exact (proj1 (proj2 (C3_moneyness 100 105 1) eq_refl eq_refl)).
  - exact (proj2 (proj2 (C3_moneyness 100 95 7) eq_refl eq_refl)).
Defined.

(** When the strike or the underlying price is a NaN, no comparison holds
    and the last branch classifies the call and the put as in the money,
    with an intrinsic value of zero. *)
Lemma calculate_moneyness_unordered (K U P : float) :
  Py.is_nan K = true \/ Py.is_nan U = true ->
  IBDataAdapter._calculate_moneyness K P U "C" =
    Ok (InTheMoney, Py.max 0%float (PrimFloat.sub U K),
        PrimFloat.sub P (Py.max 0%float (PrimFloat.sub U K))) /\
  IBDataAdapter._calculate_moneyness K P U "P" =
    Ok (InTheMoney, Py.max 0%float (PrimFloat.sub K U),
        PrimFloat.sub P (Py.max 0%float (PrimFloat.sub K U))) /\
  MoneynessSpec.call K U = OutTheMoney /\
  MoneynessSpec.put K U = OutTheMoney.
Proof.
  unfold IBDataAdapter._calculate_moneyness, MoneynessSpec.call,
    MoneynessSpec.put.
  cbn [String.eqb Ascii.eqb Bool.eqb Py.local mbind result_bind mret result_ret].
  unfold Py.gt.
  change (PrimFloat.ltb K U) with (Py.lt K U).
  change (PrimFloat.ltb U K) with (Py.lt U K).
  intros H.
  destruct (nan_unordered K U H) as [-> ->].
  destruct (nan_unordered U K (or_ind (@or_intror _ _) (@or_introl _ _) H))
    as [-> ->].
  repeat split.
Qed.

(** C3 (as stated) fails: for an underlying price that is a NaN, [U >= K]
    is false and the specification classifies the call as out of the
    money; the code classifies it as in the money. *)
Lemma C3_nan_call_in_the_money :
  Py.le 100%float Py.nan = false /\
  MoneynessSpec.call 100 Py.nan = OutTheMoney /\
  IBDataAdapter._calculate_moneyness 100 1 Py.nan "C"
  = Ok (InTheMoney, 0%float, 1%float) /\
  IBDataAdapter._calculate_moneyness 100 1 Py.nan "C"
  <> Ok (MoneynessSpec.call 100 Py.nan, 0%float, 1%float).
Proof.
  split; [reflexivity|]. split; [reflexivity|]. split; [reflexivity|].
  discriminate.
Qed.

(** A right that is neither ["C"] nor ["P"] leaves [moneyness] unassigned. *)
Lemma calculate_moneyness_other_right (K U P : float) (right : string) :
  right <> "C" -> right <> "P" ->
  IBDataAdapter._calculate_moneyness K P U right =
    Raise (UnboundLocalError "moneyness").
Proof.
  intros HC HP. unfold IBDataAdapter._calculate_moneyness.
  apply String.eqb_neq in HC, HP. rewrite HC, HP. reflexivity.
Qed.

(** On a NaN the comparisons of [_calculate_moneyness] all fail and the
    last branch classifies the option as in the money. *)
Lemma calculate_moneyness_nan :
  IBDataAdapter._calculate_moneyness 100 1 Py.nan "C" =
    Ok (InTheMoney, 0%float, 1%float).
Proof. reflexivity. Qed.

(** ** C7, C9, C10: the [Asset] object *)

Section AssetProperties.

Variable CURRENCY : Currency.

(** C10: the [currency] argument of the constructor is ignored: the asset
    carries the constant [CURRENCY]. *)
Theorem C10_currency_argument_ignored
    (code : string) (asset_type : AssetType)
    (data_source : option DataSource) (currency : option Currency) :
  Asset.currency (Asset.__init__ CURRENCY code asset_type data_source currency)
  = CURRENCY.
Proof. reflexivity. Qed.

(** The setters leave the two attributes that the checkers read alone. *)
Lemma assign_keeps_updated (a : Asset.t) (x : Asset.assignment) :
  Asset._historical_updated (Asset.assign a x) = Asset._historical_updated a /\
  Asset._historical_IV_updated (Asset.assign a x) = Asset._historical_IV_updated a.
Proof. destruct x; split; reflexivity. Qed.

Lemma assign_all_keeps_updated (l : list Asset.assignment) (a : Asset.t) :
  Asset._historical_updated (Asset.assign_all a l) = Asset._historical_updated a /\
  Asset._historical_IV_updated (Asset.assign_all a l) = Asset._historical_IV_updated a.
Proof.
  revert a. induction l as [|x l IH]; intros a; [split; reflexivity|].
  unfold Asset.assign_all in *. cbn [foldl].
  destruct (IH (Asset.assign a x)) as [IH1 IH2].
  destruct (assign_keeps_updated a x) as [H1 H2].
  split; congruence.
Qed.

(** C9: on an asset that was built by the constructor and then assigned to
    through the property setters only, both checkers answer [False] at any
    time: the setters of [historical] and [historical_IV] write the time of
    the update to [_historical_data_updated], and [_historical_updated] and
    [_historical_IV_updated], which the checkers read, stay [None]. *)
Theorem C9_historical_never_updated
    (code : string) (asset_type : AssetType)
    (data_source : option DataSource) (currency : option Currency)
    (l : list Asset.assignment) (now : Py.datetime) :
  let a := Asset.assign_all
             (Asset.__init__ CURRENCY code asset_type data_source currency) l in
  Asset.historical_is_updated a now = false /\
  Asset.historical_IV_is_updated a now = false /\
  Asset._historical_updated a = None /\
  Asset._historical_IV_updated a = None /\
  (forall values t,
     Asset._historical_data_updated (Asset.set_historical a values t) = Some t /\
     Asset._historical_data_updated (Asset.set_historical_IV a values t) = Some t).
Proof.
  intros a.
  destruct (assign_all_keeps_updated l
              (Asset.__init__ CURRENCY code asset_type data_source currency))
    as [H1 H2].
  cbn [Asset.__init__ Asset._historical_updated Asset._historical_IV_updated]
    in H1, H2.
  fold a in H1, H2.
  unfold Asset.historical_is_updated, Asset.historical_IV_is_updated.
  rewrite H1, H2. repeat split.
Qed.

End AssetProperties.

(** C7 (as amended): assigning a snapshot to [current] replaces the held
    snapshot, whatever the two timestamps are; a newer snapshot replaces the
    held one, and so does an older one. *)
Theorem C7_current_is_replaced (a : Asset.t) (values : AssetData.t) :
  Asset.current (Asset.set_current a values) = Some values.
Proof. reflexivity. Qed.


(** C7 (as stated) fails: an asset that holds a snapshot taken at time 200
    accepts a snapshot taken at time 100: the older snapshot is the current
    one afterwards, the held one is gone. *)
Lemma C7_older_snapshot_accepted :
  let held := snapshot_at 200 3 in
  let older := snapshot_at 100 2 in
  let a := Asset.set_current
             (Asset.__init__ {| Currency_value := "USD" |} "SPY" Stock None None)
             held in
  Asset.current a = Some held /\
  AssetData.time older = Some 100 /\
  AssetData.time held = Some 200 /\
  Asset.current (Asset.set_current a older) = Some older /\
  Asset.current (Asset.set_current a older) <> Asset.current a.
Proof.
  cbv zeta. split; [|split; [|split; [|split]]]; try reflexivity.
  intros H.
  apply (f_equal (fun o => o ≫= AssetData.time)) in H.
  discriminate H.
Qed.

(** ** C2: the bracket of a sell-naked-put order *)

(** C2 (as amended): the bracket that [_place_SNP] places for an entry
    order is the entry itself, a take-profit limit order on the reverse
    side at half the entry price, and a stop-loss order on the reverse side
    triggered at twice the entry price; the three orders carry the quantity
    of the entry order, and the factors of the leg play no part. *)
Theorem C2_bracket_prices
    (contract : Contract.t) (order : IBBrokerAdapter.order) (broker : Broker.t) :
  let side :=
    match IBBrokerAdapter.action order with
    | IBBrokerAdapter.Buy => "BUY"
    | IBBrokerAdapter.Sell => "SELL"
    end in
  let id := Broker.reqIdSeq broker in
  let quantity := IBBrokerAdapter.quantity order in
  let price := IBBrokerAdapter.price order in
  let ref := IBBrokerAdapter.reference order in
  BracketSpec.reverse side <> side /\
  Broker.placed (IBBrokerAdapter._place_SNP contract order broker)
  = (Broker.placed broker ++
     [(contract, IBOrder.LimitOrder side quantity price ref id false 0);
      (contract,
       IBOrder.LimitOrder (BracketSpec.reverse side) quantity
         (PrimFloat.div price 2%float) ref (id + 1) false id);
      (contract,
       IBOrder.StopOrder (BracketSpec.reverse side) quantity
         (PrimFloat.mul price 2%float) ref (id + 1 + 1) true id)])%list.
Proof.
  cbv zeta. unfold IBBrokerAdapter._place_SNP.
  cbn [Broker.getReqId Broker.placeOrder Broker.placed Broker.reqIdSeq
       IBOrder.orderId IBOrder.LimitOrder].
  rewrite <- !app_assoc. cbn [app].
  destruct (IBBrokerAdapter.action order); split; try reflexivity;
    intros H; discriminate H.
Qed.

(** The numbers of the specification: an entry at 2.00 gives a take-profit
    at 1.00 and a stop-loss trigger at 4.00. *)
Lemma place_SNP_at_two :
  map (fun co => (IBOrder.orderType (snd co), IBOrder.action (snd co),
                  IBOrder.totalQuantity (snd co),
                  IBOrder.lmtPrice (snd co), IBOrder.auxPrice (snd co)))
    (Broker.placed (IBBrokerAdapter._place_SNP SPY_put short_put_entry fresh_broker))
  = [("LMT", "SELL", 1, 2%float, IBOrder.UNSET_DOUBLE);
     ("LMT", "BUY", 1, 1%float, IBOrder.UNSET_DOUBLE);
     ("STP", "BUY", 1, IBOrder.UNSET_DOUBLE, 4%float)].
Proof. reflexivity. Qed.

(** For a leg with the factors 0.5 and 2 the bracket is the one that the
    specification describes. *)
Lemma place_SNP_as_specified_at_half_and_double :
  let leg := short_put 0.5%float 2%float in
  let broker := IBBrokerAdapter._place_SNP SPY_put short_put_entry fresh_broker in
  exists parent take_profit stop_loss,
    map snd (Broker.placed broker) = [parent; take_profit; stop_loss] /\
    BracketSpec.as_specified leg short_put_entry parent take_profit stop_loss.
Proof.
  cbv zeta. eexists _, _, _. split; [reflexivity|].
  unfold BracketSpec.as_specified.
  split; [reflexivity|]. split; [reflexivity|]. split; [reflexivity|].
  split; [reflexivity|]. split; [reflexivity|]. split; reflexivity.
Qed.

(** C2 (as stated) fails: for a leg with a take-profit factor of 0.25 and a
    stop-loss factor of 3, the entry at 2.00 is bracketed at 1.00 and 4.00,
    not at 0.50 and 6.00. *)
Lemma C2_leg_factors_ignored :
  let leg := short_put 0.25%float 3%float in
  let broker := IBBrokerAdapter._place_SNP SPY_put short_put_entry fresh_broker in
  exists parent take_profit stop_loss,
    map snd (Broker.placed broker) = [parent; take_profit; stop_loss] /\
    Leg.order_price leg = Some (IBBrokerAdapter.price short_put_entry) /\
    Leg.quantity leg = Some (IBBrokerAdapter.quantity short_put_entry) /\
    IBOrder.lmtPrice take_profit = 1%float /\
    IBOrder.auxPrice stop_loss = 4%float /\
    PrimFloat.mul (IBBrokerAdapter.price short_put_entry) (Leg.take_profit_factor leg)
    = 0.5%float /\
    PrimFloat.mul (IBBrokerAdapter.price short_put_entry) (Leg.stop_loss_factor leg)
    = 6%float /\
    ~ BracketSpec.as_specified leg short_put_entry parent take_profit stop_loss.
Proof.
  cbv zeta. eexists _, _, _.
  split; [reflexivity|].
  split; [reflexivity|]. split; [reflexivity|]. split; [reflexivity|].
  split; [reflexivity|]. split; [reflexivity|]. split; [reflexivity|].
  intros (_ & H & _). revert H. apply float_neq; reflexivity.
Qed.

(** ** C4, C8: the translation of position and trade events *)

Lemma raises_bind {A B} (m : result A) (k : A -> result B) :
  raises m -> raises (m ≫= k).
Proof. intros [e ->]. exists e. reflexivity. Qed.

Lemma raises_Raise {A} (e : exn) : raises (@Raise A e).
Proof. exists e. reflexivity. Qed.

Lemma getitem_None {V} (d : gmap string V) (k : string) :
  d !! k = None -> Py.getitem d k = Raise (KeyError k).
Proof. unfold Py.getitem. intros ->. reflexivity. Qed.

(** Runs a computation in [result] one statement further: either the
    statement raises, or its value is named. *)
Ltac run_statement :=
  match goal with
  | |- raises (?m ≫= _) =>
      let E := fresh "E" in
      destruct m eqn:E; cbn [mbind result_bind]; [|apply raises_Raise]
  | |- raises (Raise _) => apply raises_Raise
  end.

Section Translation.

Variable parse_ib_date : string -> result Py.date.
Variable str_round1 : float -> string.
Variable strftime_dmY : Py.date -> string.
Variable TradeData : Type.
Variable TradeData_init : IBTranslator.trade_kwargs -> result TradeData.

Local Abbreviation translate_position :=
  (IBTranslator.translate_position parse_ib_date str_round1 strftime_dmY).
Local Abbreviation translate_trade :=
  (IBTranslator.translate_trade parse_ib_date TradeData TradeData_init).

(** The constructor of [PositionData] does not accept a missing ownership. *)
Lemma PositionData_init_no_ownership code asset_type quantity expiration strike
    right average_cost :
  PositionData.__init__ str_round1 strftime_dmY code asset_type None quantity
    expiration strike right average_cost
  = Raise (AttributeError "value").
Proof. reflexivity. Qed.

(** C4: a position event that reports a quantity of zero makes
    [translate_position] raise, whatever the contract is: it yields no
    result at all, neither a position nor a sign that there is none. *)
Theorem C4_zero_quantity_raises
    (account : string) (contract : Contract.t) (avgCost : float) :
  raises (translate_position
            {| IBPosition.account := account; IBPosition.contract := contract;
               IBPosition.position := 0; IBPosition.avgCost := avgCost |}).
Proof.
  unfold IBTranslator.translate_position.
  cbn [IBPosition.contract IBPosition.position Z.ltb Z.compare].
  repeat run_statement.
  rewrite PositionData_init_no_ownership. apply raises_Raise.
Qed.

(** When [translate_position] returns, the ownership is the sign of the
    reported quantity, which is not zero, and the quantity is its absolute
    value. *)
Lemma translate_position_ownership (item : IBPosition.t) (p : PositionData.t) :
  translate_position item = Ok p ->
  PositionData.quantity p = Z.abs (IBPosition.position item) /\
  (0 < IBPosition.position item /\ PositionData.ownership p = Some Buyer \/
   IBPosition.position item < 0 /\ PositionData.ownership p = Some Seller).
Proof.
  unfold IBTranslator.translate_position.
  destruct (Py.getitem _ _) as [asset_type|]; [|discriminate].
  cbn [mbind result_bind].
  destruct (IBTranslator.translate_expiration _ _) as [expiration|]; [|discriminate].
  cbn [mbind result_bind].
  destruct (IBTranslator.translate_right _) as [right|]; [|discriminate].
  cbn [mbind result_bind].
  unfold PositionData.__init__.
  destruct (0 <? IBPosition.position item) eqn:Hpos;
    [|destruct (IBPosition.position item <? 0) eqn:Hneg];
    cbn [PositionData.attr mbind result_bind]; [| |discriminate];
    (destruct right; cbn [PositionData.attr mbind result_bind]; [|discriminate]);
    (destruct expiration; cbn [PositionData.attr mbind result_bind mret result_ret];
     [|discriminate]);
    intros [= <-]; cbn [PositionData.quantity PositionData.ownership];
    (split; [reflexivity|]); [left|right]; split; try reflexivity; lia.
Qed.

(** An instrument type outside the table makes both translators raise
    [KeyError]. *)
Lemma translate_position_unknown_secType (item : IBPosition.t) :
  IBTranslator._sectype_translation
    !! Contract.secType (IBPosition.contract item) = None ->
  translate_position item
  = Raise (KeyError (Contract.secType (IBPosition.contract item))).
Proof.
  intros H. unfold IBTranslator.translate_position.
  rewrite (getitem_None _ _ H). reflexivity.
Qed.

Lemma translate_trade_unknown_secType (item : Trade.t) (now : Py.datetime) :
  IBTranslator._sectype_translation
    !! Contract.secType (Trade.contract item) = None ->
  translate_trade item now
  = Raise (KeyError (Contract.secType (Trade.contract item))).
Proof.
  intros H. unfold IBTranslator.translate_trade.
  rewrite (getitem_None _ _ H). reflexivity.
Qed.

(** An order action outside the table makes [translate_trade] raise. *)
Lemma translate_trade_unknown_action (item : Trade.t) (now : Py.datetime) :
  IBTranslator._ownership_translation
    !! IBOrder.action (Trade.order item) = None ->
  raises (translate_trade item now).
Proof.
  intros H. unfold IBTranslator.translate_trade.
  run_statement. rewrite (getitem_None _ _ H). apply raises_Raise.
Qed.

(** A status outside the table makes [translate_trade] raise. *)
Lemma translate_trade_unknown_status (item : Trade.t) (now : Py.datetime) :
  IBTranslator._order_status_translation
    !! IBOrderStatus.status (Trade.orderStatus item) = None ->
  raises (translate_trade item now).
Proof.
  intros H. unfold IBTranslator.translate_trade.
  do 5 run_statement.
  match goal with a : _ * _ * _ * _ |- _ => destruct a as [[[? ?] ?] ?] end.
  rewrite (getitem_None _ _ H). apply raises_Raise.
Qed.

(** The account tags, in contrast, are looked up after a membership test:
    [_translate_account_tag] is total and answers [None] outside its
    table. *)
Lemma translate_account_tag_total (ib_tag : string) :
  IBTranslator._translate_account_tag ib_tag
  = IBTranslator._account_translation !! ib_tag.
Proof.
  unfold IBTranslator._translate_account_tag, Py.contains.
  case_bool_decide as H; [reflexivity|].
  destruct (IBTranslator._account_translation !! ib_tag) eqn:E; [|reflexivity].
  exfalso. apply H. eauto.
Qed.

(** C8: the instrument type, the order action and the status are looked up
    without a membership test.  A position in a combination ([BAG]), a
    trade in one, a trade of which the action is [SSHORT] and a trade of
    which the status is [ApiCancelled] each make the translator raise
    [KeyError]; only the account tag has an unrecognized result. *)
Theorem C8_unknown_codes_raise (now : Py.datetime) :
  translate_position bag_position = Raise (KeyError "BAG") /\
  translate_trade (stock_trade "BAG" "BUY" "Filled") now = Raise (KeyError "BAG") /\
  translate_trade (stock_trade "STK" "SSHORT" "Filled") now
  = Raise (KeyError "SSHORT") /\
  translate_trade (stock_trade "STK" "BUY" "ApiCancelled") now
  = Raise (KeyError "ApiCancelled") /\
  IBTranslator._translate_account_tag "AccruedCash" = None.
Proof.
  split; [|split; [|split; [|split]]]; reflexivity.
Qed.

End Translation.

(** The put of the samples: a long and a short position are translated, a
    closed one is not. *)
Lemma translate_put_positions :
  let translate :=
    IBTranslator.translate_position parse_20181019 (fun _ => "250.0")
      (fun _ => "19-10-2018") in
  (exists p, translate (put_position 2) = Ok p /\
             PositionData.ownership p = Some Buyer /\
             PositionData.quantity p = 2 /\
             PositionData.position_id p = "SPY BUY P 250.0 19-10-2018") /\
  (exists p, translate (put_position (-3)) = Ok p /\
             PositionData.ownership p = Some Seller /\
             PositionData.quantity p = 3 /\
             PositionData.position_id p = "SPY SELL P 250.0 19-10-2018") /\
  translate (put_position 0) = Raise (AttributeError "value").
Proof.
  cbv zeta. split; [|split].
  - eexists. split; [reflexivity|]. split; [|split]; reflexivity.
  - eexists. split; [reflexivity|]. split; [|split]; reflexivity.
  - reflexivity.
Qed.

(** The handler of position events passes the exception on: nothing is
    emitted for a closed position. *)
Lemma onPositionEvent_zero_quantity {S} (emit : PositionData.t -> S -> S) (s : S) :
  IBBrokerAdapter._onPositionEvent emit parse_20181019 (fun _ => "250.0")
    (fun _ => "19-10-2018") (put_position 0) s
  = Raise (AttributeError "value").
Proof. reflexivity. Qed.

(** ** C6: the contracts of the watch list *)

Section InitializeAssets.

Variable CURRENCY : Currency.
Variable qualifyContracts : list Contract.t -> list Contract.t.

Local Abbreviation requested_contracts :=
  (IBDataAdapter.requested_contracts CURRENCY).
Local Abbreviation initialize_assets :=
  (IBDataAdapter.initialize_assets CURRENCY qualifyContracts).

Lemma requested_contracts_from (acc : list Contract.t) (assets : list Asset.t) :
  foldl
    (fun contracts asset =>
       match Asset.asset_type asset with
       | Index =>
           (contracts ++ [Contract.Index (Asset.code asset) (Currency_value CURRENCY)])%list
       | Stock =>
           (contracts ++ [Contract.Stock (Asset.code asset) "SMART" (Currency_value CURRENCY)])%list
       | _ => contracts
       end)
    acc assets
  = (acc ++ flat_map (contract_of CURRENCY) assets)%list.
Proof.
  revert acc. induction assets as [|a assets IH]; intros acc; cbn [foldl flat_map].
  - rewrite app_nil_r. reflexivity.
  - rewrite IH. unfold contract_of at 2.
    destruct (Asset.asset_type a); cbn [app];
      rewrite <- ?app_assoc; reflexivity.
Qed.

Lemma requested_contracts_flat_map (assets : list Asset.t) :
  requested_contracts assets = flat_map (contract_of CURRENCY) assets.
Proof. apply (requested_contracts_from []). Qed.

Lemma contract_of_cases (a : Asset.t) :
  contract_of CURRENCY a = [] \/
  exists c, contract_of CURRENCY a = [c] /\ Contract.symbol c = Asset.code a.
Proof.
  unfold contract_of.
  destruct (Asset.asset_type a); try (left; reflexivity);
    right; eexists; split; reflexivity.
Qed.

Lemma requested_contracts_length (assets : list Asset.t) :
  (length (requested_contracts assets) <= length assets)%nat.
Proof.
  rewrite requested_contracts_flat_map.
  induction assets as [|a assets IH]; cbn [flat_map length]; [lia|].
  rewrite length_app.
  destruct (contract_of_cases a) as [-> | (c & -> & _)]; cbn [length]; lia.
Qed.

(** When as many contracts are requested as there are assets, they are the
    contracts of the assets, one for one. *)
Lemma requested_contracts_symbols (assets : list Asset.t) :
  length (requested_contracts assets) = length assets ->
  map Contract.symbol (requested_contracts assets) = map Asset.code assets.
Proof.
  induction assets as [|a assets IH]; [reflexivity|].
  pose proof (requested_contracts_length assets) as Hle.
  revert IH Hle. rewrite !requested_contracts_flat_map.
  cbn [flat_map length map]. rewrite length_app, map_app.
  destruct (contract_of_cases a) as [-> | (c & -> & Hc)];
    cbn [length map app]; intros IH Hle Hlen.
  - exfalso. lia.
  - rewrite Hc. f_equal. apply IH. lia.
Qed.

(** A sublist that is as long as the list is the list. *)
Lemma sublist_same_length {A} (l1 l2 : list A) :
  sublist l1 l2 -> (length l2 <= length l1)%nat -> l1 = l2.
Proof.
  induction 1 as [|x l1 l2 Hsub IH|x l1 l2 Hsub IH]; cbn [length]; intros Hlen.
  - reflexivity.
  - f_equal. apply IH. lia.
  - apply sublist_length in Hsub. lia.
Qed.

Lemma by_symbol_snoc (q : list Contract.t) (c : Contract.t) :
  IBDataAdapter.by_symbol (q ++ [c])
  = <[Contract.symbol c := c]> (IBDataAdapter.by_symbol q).
Proof. unfold IBDataAdapter.by_symbol. rewrite foldl_app. reflexivity. Qed.

(** Every entry of the mapping is a qualified contract under its symbol. *)
Lemma by_symbol_lookup_Some (q : list Contract.t) (k : string) (c : Contract.t) :
  IBDataAdapter.by_symbol q !! k = Some c -> c ∈ q /\ Contract.symbol c = k.
Proof.
  induction q as [|x q IH] using rev_ind.
  - unfold IBDataAdapter.by_symbol. cbn [foldl]. rewrite lookup_empty.
    discriminate.
  - rewrite by_symbol_snoc.
    destruct (decide (Contract.symbol x = k)) as [<-|Hne].
    + rewrite lookup_insert_eq. intros [= <-]. split; [|reflexivity].
      apply elem_of_app. right. apply list_elem_of_singleton. reflexivity.
    + rewrite lookup_insert_ne by exact Hne. intros H.
      destruct (IH H) as [Hin Hk]. split; [|exact Hk].
      apply elem_of_app. left. exact Hin.
Qed.

(** Every symbol of a qualified contract is a key of the mapping. *)
Lemma by_symbol_lookup_symbol (q : list Contract.t) (k : string) :
  k ∈ map Contract.symbol q -> is_Some (IBDataAdapter.by_symbol q !! k).
Proof.
  induction q as [|x q IH] using rev_ind.
  - cbn [map]. intros H. apply elem_of_nil in H. destruct H.
  - rewrite by_symbol_snoc, map_app. cbn [map]. intros H.
    destruct (decide (Contract.symbol x = k)) as [<-|Hne].
    + rewrite lookup_insert_eq. eauto.
    + rewrite lookup_insert_ne by exact Hne. apply IH.
      apply elem_of_app in H. destruct H as [H|H]; [exact H|].
      apply list_elem_of_singleton in H. congruence.
Qed.

(** C6: when the broker qualifies fewer contracts than there are assets,
    [initialize_assets] raises [ValueError] and returns no mapping; when it
    qualifies as many, [initialize_assets] returns a mapping of which every
    entry is a qualified contract under its symbol and, the broker
    answering with contracts that were requested, in which every asset has
    its contract under its code. *)
Theorem C6_initialize_assets (assets : list Asset.t) :
  let q_contracts := qualifyContracts (requested_contracts assets) in
  ((length q_contracts < length assets)%nat ->
   initialize_assets assets = Raise (ValueError "Error: ambiguous contracts")) /\
  (length q_contracts = length assets ->
   exists d : gmap string Contract.t,
     initialize_assets assets = Ok d /\
     (forall k c, d !! k = Some c -> c ∈ q_contracts /\ Contract.symbol c = k) /\
     (answers_requested qualifyContracts ->
      forall a, a ∈ assets ->
        exists c, d !! Asset.code a = Some c /\ c ∈ q_contracts /\
                  Contract.symbol c = Asset.code a)).
Proof.
  intros q_contracts. unfold IBDataAdapter.initialize_assets.
  fold q_contracts. split.
  - intros Hlt.
    destruct (Nat.eqb_spec (length q_contracts) (length assets)) as [E|_];
      [lia|reflexivity].
  - intros Hlen. rewrite Hlen, Nat.eqb_refl.
    exists (IBDataAdapter.by_symbol q_contracts).
    split; [reflexivity|]. split; [apply by_symbol_lookup_Some|].
    intros Hq a Ha.
    pose proof (Hq (requested_contracts assets)) as Hsub. fold q_contracts in Hsub.
    pose proof (requested_contracts_length assets) as Hle.
    pose proof (sublist_length _ _ Hsub) as Hle'.
    rewrite !length_map in Hle'.
    assert (Hsym : map Contract.symbol q_contracts = map Asset.code assets).
    { rewrite <- requested_contracts_symbols by lia.
      apply sublist_same_length; [exact Hsub|].
      rewrite !length_map. lia. }
    destruct (by_symbol_lookup_symbol q_contracts (Asset.code a)) as [c Hc].
    { rewrite Hsym. apply list_elem_of_fmap. exists a. split; [reflexivity|exact Ha]. }
    exists c. split; [exact Hc|]. apply by_symbol_lookup_Some. exact Hc.
Qed.

End InitializeAssets.

(** A session that qualifies nothing makes the initialization of one asset
    raise; a session that qualifies everything gives the stock and the
    index their contracts. *)
Lemma C6_initialize_assets_witness :
  IBDataAdapter.initialize_assets USD qualify_none [SPY]
  = Raise (ValueError "Error: ambiguous contracts") /\
  exists d : gmap string Contract.t,
    IBDataAdapter.initialize_assets USD qualify_all [SPY; SPX] = Ok d /\
    (exists c, d !! "SPY" = Some c /\ Contract.secType c = "STK") /\
    (exists c, d !! "SPX" = Some c /\ Contract.secType c = "IND").
Proof.
  split.
  - apply (C6_initialize_assets USD qualify_none [SPY]). cbn. lia.
  - destruct (proj2 (C6_initialize_assets USD qualify_all [SPY; SPX]) eq_refl)
      as (d & Hd & Hentries & Hassets).
    exists d. split; [exact Hd|].
    assert (Hq : answers_requested qualify_all) by (intros cs; reflexivity).
    split.
    + destruct (Hassets Hq SPY) as (c & Hc & Hin & _).
      { apply list_elem_of_here. }
      exists c. split; [exact Hc|].
      cbn in Hin. apply elem_of_cons in Hin as [->|Hin]; [reflexivity|].
      apply list_elem_of_singleton in Hin as ->.
      apply Hentries in Hc as [_ Hc]. discriminate Hc.
    + destruct (Hassets Hq SPX) as (c & Hc & Hin & _).
      { apply list_elem_of_further, list_elem_of_here. }
      exists c. split; [exact Hc|].
      cbn in Hin. apply elem_of_cons in Hin as [->|Hin].
      * apply Hentries in Hc as [_ Hc]. discriminate Hc.
      * apply list_elem_of_singleton in Hin as ->. reflexivity.
Defined.

(** ** C5: the status of an order *)

(** A new order is pending. *)
Lemma new_order_is_pending strftime asset rol ownership quantity price
    order_type expiration strike right reference now :
  OrderData.status
    (OrderData.__init__ strftime asset rol ownership quantity price order_type
       expiration strike right reference now)
  = APIPending.
Proof. reflexivity. Qed.

(** The machine of the specification has no step out of a terminal
    state. *)
Lemma terminal_no_step (a b : OrderStatus) :
  StatusMachine.terminal a = true -> StatusMachine.step a b = false.
Proof. destruct a, b; cbn; congruence. Qed.

Lemma terminal_forward (a b : OrderStatus) :
  StatusMachine.terminal a = true -> StatusMachine.forward a b -> b = a.
Proof.
  intros Ha Hab. induction Hab as [|a b c Hstep _ _]; [reflexivity|].
  rewrite (terminal_no_step a b Ha) in Hstep. discriminate Hstep.
Qed.

Lemma status_eqb_eq (a b : OrderStatus) : StatusMachine.eqb a b = true -> a = b.
Proof. destruct a, b; cbn; congruence. Qed.

Lemma reachable_within_forward (n : nat) (a b : OrderStatus) :
  StatusMachine.reachable_within n a b = true -> StatusMachine.forward a b.
Proof.
  revert a. induction n as [|n IH]; intros a; cbn [StatusMachine.reachable_within];
    intros H; apply orb_true_iff in H as [H|H];
    try (apply status_eqb_eq in H as ->; apply rtc_refl);
    try discriminate H.
  apply existsb_exists in H as (c & _ & H).
  apply andb_true_iff in H as [Hstep H].
  eapply rtc_l; [exact Hstep|apply IH; exact H].
Qed.

Lemma reachable_step (a c b : OrderStatus) :
  StatusMachine.step a c = true ->
  StatusMachine.reachable c b = true -> StatusMachine.reachable a b = true.
Proof.
  intros H1 H2.
  destruct a, c; try discriminate H1; destruct b; try discriminate H2;
    reflexivity.
Qed.

(** The test of the ledger decides the relation of the state machine. *)
Lemma reachable_forward (a b : OrderStatus) :
  StatusMachine.reachable a b = true <-> StatusMachine.forward a b.
Proof.
  split; [apply reachable_within_forward|].
  intros H. induction H as [a|a c b Hstep _ IH].
  - destruct a; reflexivity.
  - exact (reachable_step a c b Hstep IH).
Qed.

(** The machine has no way back: two statuses that are forward of each
    other are one status. *)
Lemma forward_antisym (a b : OrderStatus) :
  StatusMachine.forward a b -> StatusMachine.forward b a -> a = b.
Proof.
  intros H1 H2. apply reachable_forward in H1, H2.
  destruct a, b; try reflexivity; try discriminate H1; discriminate H2.
Qed.

(** One event leaves every order in the ledger, with a status forward of
    the one it had. *)
Lemma handle_order (self : Optopus.t) (ev : Optopus.event)
    (id : string) (o : OrderData.t) :
  Optopus.orders self !! id = Some o ->
  exists o',
    Optopus.orders (Optopus.handle self ev) !! id = Some o' /\
    StatusMachine.forward (OrderData.status o) (OrderData.status o').
Proof.
  intros Ho. destruct ev as [trade|trade|trade]; cbn [Optopus.handle].
  - exists o. split; [exact Ho|apply rtc_refl].
  - exists o. split; [exact Ho|apply rtc_refl].
  - unfold Optopus.orders in *. cbn [Optopus._data_manager].
    unfold DataManager._commission_report.
    destruct (DataManager.orders (Optopus._data_manager self)
                !! TradeData.order_id trade) as [held|] eqn:Hheld;
      [|exists o; split; [exact Ho|apply rtc_refl]].
    destruct (StatusMachine.reachable (OrderData.status held)
                (TradeData.status trade)) eqn:Hr;
      cbn [DataManager.orders];
      [|exists o; split; [exact Ho|apply rtc_refl]].
    destruct (decide (TradeData.order_id trade = id)) as [E|E].
    + rewrite E in *. rewrite Ho in Hheld. injection Hheld as <-.
      eexists. split; [apply lookup_insert_eq|].
      apply reachable_forward. exact Hr.
    + exists o. split; [|apply rtc_refl].
      rewrite lookup_insert_ne by exact E. exact Ho.
Qed.

Lemma handle_all_order (evs : list Optopus.event) (self : Optopus.t)
    (id : string) (o : OrderData.t) :
  Optopus.orders self !! id = Some o ->
  exists o',
    Optopus.orders (Optopus.handle_all self evs) !! id = Some o' /\
    StatusMachine.forward (OrderData.status o) (OrderData.status o').
Proof.
  unfold Optopus.handle_all. revert self o.
  induction evs as [|ev evs IH]; intros self o Ho; cbn [foldl].
  - exists o. split; [exact Ho|apply rtc_refl].
  - destruct (handle_order self ev id o Ho) as (o1 & Ho1 & H1).
    destruct (IH _ o1 Ho1) as (o' & Ho' & H').
    exists o'. split; [exact Ho'|]. eapply rtc_trans; eassumption.
Qed.

(** A report of a status that is forward of the held one is applied. *)
Lemma commission_report_advances (self : Optopus.t) (trade : TradeData.t)
    (o : OrderData.t) :
  Optopus.orders self !! TradeData.order_id trade = Some o ->
  StatusMachine.forward (OrderData.status o) (TradeData.status trade) ->
  Optopus.orders (Optopus.handle self (Optopus.CommissionReport trade))
    !! TradeData.order_id trade
  = Some (OrderData.with_status o (TradeData.status trade)).
Proof.
  intros Ho H. apply reachable_forward in H.
  unfold Optopus.orders in *. cbn [Optopus.handle Optopus._data_manager].
  unfold DataManager._commission_report. rewrite Ho, H.
  cbn [DataManager.orders]. apply lookup_insert_eq.
Qed.

(** C5: whatever events the session delivers, an order of the ledger is
    still there, with a status that is forward of the one it had in the
    state machine; a terminal status is kept, and no status that was left
    is taken again.  A commission report of a status that is a regression,
    or that differs from a terminal status held, is discarded: it leaves
    the orders as they are. *)
Theorem C5_status_only_forward
    (self : Optopus.t) (id : string) (o : OrderData.t) :
  Optopus.orders self !! id = Some o ->
  (forall evs : list Optopus.event,
     exists o',
       Optopus.orders (Optopus.handle_all self evs) !! id = Some o' /\
       StatusMachine.forward (OrderData.status o) (OrderData.status o') /\
       (StatusMachine.terminal (OrderData.status o) = true ->
        OrderData.status o' = OrderData.status o) /\
       (StatusMachine.forward (OrderData.status o') (OrderData.status o) ->
        OrderData.status o' = OrderData.status o)) /\
  (forall trade : TradeData.t,
     TradeData.order_id trade = id ->
     TradeData.status trade <> OrderData.status o ->
     StatusMachine.forward (TradeData.status trade) (OrderData.status o) \/
     StatusMachine.terminal (OrderData.status o) = true ->
     Optopus.orders (Optopus.handle self (Optopus.CommissionReport trade))
     = Optopus.orders self).
Proof.
  intros Ho. split.
  - intros evs.
    destruct (handle_all_order evs self id o Ho) as (o' & Ho' & H).
    exists o'. split; [exact Ho'|]. split; [exact H|]. split.
    + intros Ht. exact (terminal_forward _ _ Ht H).
    + intros Hback. symmetry. exact (forward_antisym _ _ H Hback).
  - intros trade Hid Hne Hbad.
    assert (StatusMachine.reachable (OrderData.status o)
              (TradeData.status trade) = false) as Hr.
    { destruct (StatusMachine.reachable (OrderData.status o)
                  (TradeData.status trade)) eqn:Hr; [|reflexivity].
      apply reachable_forward in Hr. exfalso. apply Hne.
      destruct Hbad as [Hback|Ht].
      - exact (forward_antisym _ _ Hback Hr).
      - exact (terminal_forward _ _ Ht Hr). }
    unfold Optopus.orders in *. cbn [Optopus.handle Optopus._data_manager].
    unfold DataManager._commission_report. rewrite Hid, Ho, Hr. reflexivity.
Qed.

(** A submitted order that is reported as filled, and then as submitted
    again by an order-status event and by a commission report, is still in
    the ledger with a status forward of submitted; a report of it as
    pending, a regression, changes no order. *)
Lemma C5_status_only_forward_witness :
  (exists o',
     Optopus.orders
       (Optopus.handle_all one_order_ledger
          [reports Filled; status_event "Submitted"; reports Submitted])
       !! OrderData.order_id submitted_order = Some o' /\
     StatusMachine.forward Submitted (OrderData.status o')) /\
  Optopus.orders (Optopus.handle one_order_ledger (reports PendingSubmit))
  = Optopus.orders one_order_ledger.
Proof.
  pose proof (C5_status_only_forward one_order_ledger
                (OrderData.order_id submitted_order) submitted_order
                (lookup_singleton_eq _ _)) as [Hall Hone].
  split.
  - destruct (Hall [reports Filled; status_event "Submitted"; reports Submitted])
      as (o' & Ho' & H & _).
    exists o'. split; [exact Ho'|exact H].
  - apply (Hone (TradeData.__init__ (OrderData.order_id submitted_order)
                   PendingSubmit 0 1%float)).
    + reflexivity.
    + discriminate.
    + left. apply rtc_once. reflexivity.
Defined.

(** What the ledger of the sample holds after those events: the order as
    filled, and one anomaly, the report of it as submitted. *)
Lemma filled_then_submitted :
  let self :=
    Optopus.handle_all one_order_ledger
      [reports Filled; status_event "Submitted"; reports Submitted] in
  OrderData.status <$> Optopus.orders self !! OrderData.order_id submitted_order
  = Some Filled /\
  length (DataManager.anomalies (Optopus._data_manager self)) = 1%nat.
Proof. vm_compute. split; reflexivity. Qed.


(** * Further properties of the code *)

Local Open Scope list_scope.

(** ** [chunks] *)

Section Chunks.

Context {A : Type}.

Lemma slice_index_le (n i : Z) : 0 <= n -> 0 <= i -> Py.slice_index n i = Z.min i n.
Proof.
  intros Hn Hi. unfold Py.slice_index.
  destruct (Z.ltb_spec i 0); [lia|reflexivity].
Qed.

(** From a start that is not negative, a slice of positive width is the
    first elements of what is left of the list. *)
Lemma slice_take_drop (l : list A) (i n : Z) :
  0 <= i -> 0 < n ->
  Py.slice l i (i + n) = take (Z.to_nat n) (drop (Z.to_nat i) l).
Proof.
  intros Hi Hn. unfold Py.slice, Py.len.
  rewrite !slice_index_le by lia.
  destruct (Z.le_gt_cases i (Z.of_nat (length l))) as [Hle|Hgt].
  - rewrite (Z.min_l i) by lia.
    destruct (Z.le_gt_cases (i + n) (Z.of_nat (length l))) as [Hle'|Hgt'].
    + rewrite Z.min_l by lia. f_equal. lia.
    + rewrite Z.min_r by lia.
      rewrite !take_ge; [reflexivity| |]; rewrite length_drop; lia.
  - rewrite !Z.min_r by lia. rewrite Z.sub_diag. cbn [Z.to_nat take].
    rewrite (drop_ge l (Z.to_nat i)) by lia. destruct (Z.to_nat n); reflexivity.
Qed.

(** The number of chunks of a list of [len] elements. *)
Lemma range_chunks (len n : Z) :
  0 <= len -> 0 < n ->
  Py.range 0 len n
  = Ok (map (fun k => 0 + Z.of_nat k * n)
            (seq 0 (Z.to_nat ((len + n - 1) / n)))).
Proof.
  intros Hlen Hn. unfold Py.range.
  destruct (Z.eqb_spec n 0); [lia|].
  destruct (Z.ltb_spec 0 n); [|lia].
  destruct (Z.ltb_spec 0 len) as [Hpos|Hzero].
  - rewrite Z.sub_0_r. reflexivity.
  - assert (len = 0) as -> by lia.
    rewrite (Z.div_small (0 + n - 1) n) by lia. reflexivity.
Qed.

Lemma chunks_take_drop (l : list A) (n : Z) :
  0 < n ->
  chunks l n
  = Ok (map (fun k => take (Z.to_nat n) (drop (k * Z.to_nat n) l))
            (seq 0 (Z.to_nat ((Py.len l + n - 1) / n)))).
Proof.
  intros Hn. unfold chunks.
  rewrite range_chunks by (unfold Py.len; lia).
  cbn [mbind result_bind mret result_ret]. f_equal.
  rewrite map_map. apply map_ext. intros k.
  rewrite Z.add_0_l, slice_take_drop by lia. repeat f_equal; lia.
Qed.

(** Cutting a list every [n] elements, as often as its length needs. *)
Lemma concat_take_drop (n c : nat) (l : list A) :
  (length l <= c * n)%nat ->
  concat (map (fun k => take n (drop (k * n) l)) (seq 0 c)) = l.
Proof.
  revert l. induction c as [|c IH]; intros l Hlen.
  - destruct l; [reflexivity|cbn in Hlen; lia].
  - cbn [seq map concat]. rewrite <- seq_shift, map_map.
    cbn [Nat.mul Nat.add drop].
    rewrite (map_ext _ (fun k => take n (drop (k * n) (drop n l)))).
    + rewrite IH by (rewrite length_drop; lia). apply take_drop.
    + intros k. rewrite drop_drop. repeat f_equal; lia.
Qed.

Lemma chunk_count_bounds (len n : Z) :
  0 <= len -> 0 < n ->
  let c := (len + n - 1) / n in
  0 <= c /\ len <= c * n /\ (forall k, 0 <= k < c -> k * n < len).
Proof.
  intros Hlen Hn c. subst c.
  pose proof (Z.div_mod (len + n - 1) n ltac:(lia)) as Hdm.
  pose proof (Z.mod_pos_bound (len + n - 1) n Hn) as Hmod.
  pose proof (Z.div_pos (len + n - 1) n ltac:(lia) Hn) as Hpos.
  split; [exact Hpos|]. split; [nia|]. intros k Hk. nia.
Qed.

(** The length of a chunk that starts within the list. *)
Lemma chunk_length (l : list A) (n : Z) (k : nat) :
  0 < n -> Z.of_nat k * n < Py.len l ->
  Py.len (take (Z.to_nat n) (drop (k * Z.to_nat n) l))
  = Z.min n (Py.len l - Z.of_nat k * n).
Proof.
  intros Hn Hk. unfold Py.len in *. rewrite length_take, length_drop.
  assert (E : Z.of_nat (k * Z.to_nat n) = Z.of_nat k * n)
    by (rewrite Nat2Z.inj_mul, Z2Nat.id; lia).
  revert E Hk. generalize (Z.of_nat k * n) as q.
  generalize (k * Z.to_nat n)%nat as p. intros p q E Hk. lia.
Qed.

(** What [chunks] does for a positive chunk size. *)
Lemma chunks_positive (l : list A) (n : Z) :
  0 < n ->
  exists cs,
    chunks l n = Ok cs /\
    concat cs = l /\
    Forall (fun c => 0 < Py.len c <= n) cs /\
    (forall (k : nat) c,
       cs !! k = Some c -> (S k < length cs)%nat -> Py.len c = n).
Proof.
  intros Hn. rewrite chunks_take_drop by exact Hn.
  eexists. split; [reflexivity|].
  destruct (chunk_count_bounds (Py.len l) n) as (H0 & H1 & H2);
    [unfold Py.len; lia|exact Hn|].
  set (c := (Py.len l + n - 1) / n) in *.
  split; [|split].
  - apply concat_take_drop. unfold Py.len in *. nia.
  - apply Forall_forall. intros x Hx.
    apply list_elem_of_fmap in Hx as (k & -> & Hk).
    apply elem_of_seq in Hk.
    pose proof (H2 (Z.of_nat k) ltac:(lia)) as Hstart.
    rewrite chunk_length by assumption. lia.
  - intros k x Hx Hk. rewrite length_map, length_seq in Hk.
    rewrite list_lookup_fmap in Hx.
    rewrite lookup_seq_lt in Hx by lia. cbn in Hx.
    injection Hx as <-.
    pose proof (H2 (Z.of_nat k) ltac:(lia)) as Hstart.
    pose proof (H2 (Z.of_nat (S k)) ltac:(lia)) as Hnext.
    rewrite chunk_length by assumption. lia.
Qed.

(** X1: for a positive chunk size, the chunks put end to end are the
    list. *)
Theorem X1_chunks_concat (l : list A) (n : Z) :
  0 < n -> exists cs, chunks l n = Ok cs /\ concat cs = l.
Proof.
  intros Hn. destruct (chunks_positive l n Hn) as (cs & H & Hc & _).
  exists cs. split; assumption.
Qed.

(** X2: for a positive chunk size [n], no chunk is empty, no chunk has
    more than [n] elements, and every chunk but the last has [n]. *)
Theorem X2_chunks_sizes (l : list A) (n : Z) :
  0 < n ->
  exists cs,
    chunks l n = Ok cs /\
    Forall (fun c => 0 < Py.len c <= n) cs /\
    (forall (k : nat) c,
       cs !! k = Some c -> (S k < length cs)%nat -> Py.len c = n).
Proof.
  intros Hn. destruct (chunks_positive l n Hn) as (cs & H & _ & Hs).
  exists cs. split; assumption.
Qed.

(** X3: a chunk size of zero makes the generator raise, also on an empty
    list; a negative one makes it yield nothing, whatever the list
    holds. *)
Theorem X3_chunks_bad_size (l : list A) (n : Z) :
  (n = 0 -> chunks l n = Raise (ValueError "range() arg 3 must not be zero")) /\
  (n < 0 -> chunks l n = Ok []).
Proof.
  unfold chunks, Py.range, Py.len. split; intros Hn.
  - subst n. reflexivity.
  - destruct (Z.eqb_spec n 0); [lia|].
    destruct (Z.ltb_spec 0 n); [lia|].
    destruct (Z.ltb_spec (Z.of_nat (length l)) 0); [lia|]. reflexivity.
Qed.

End Chunks.

Lemma X1_chunks_concat_witness :
  exists cs, chunks [1; 2; 3; 4; 5] 2 = Ok cs /\ concat cs = [1; 2; 3; 4; 5].
Proof. apply (X1_chunks_concat [1; 2; 3; 4; 5] 2). lia. Defined.

Lemma X2_chunks_sizes_witness :
  exists cs,
    chunks [1; 2; 3; 4; 5] 2 = Ok cs /\
    Forall (fun c => 0 < Py.len c <= 2) cs /\
    (forall (k : nat) c,
       cs !! k = Some c -> (S k < length cs)%nat -> Py.len c = 2).
Proof. apply (X2_chunks_sizes [1; 2; 3; 4; 5] 2). lia. Defined.

Lemma X3_chunks_bad_size_witness :
  chunks [1; 2; 3] 0 = Raise (ValueError "range() arg 3 must not be zero") /\
  chunks [1; 2; 3] (-2) = @Ok (list (list Z)) [].
Proof.
  split.
  - apply (X3_chunks_bad_size [1; 2; 3] 0). reflexivity.
  - apply (X3_chunks_bad_size [1; 2; 3] (-2)). lia.
Defined.

Lemma chunks_of_five :
  chunks [1; 2; 3; 4; 5] 2 = Ok [[1; 2]; [3; 4]; [5]].
Proof. reflexivity. Qed.

(** ** Dictionaries filled by a loop: [Strategy.legs] and the contracts of
    [initialize_assets] *)

Section KeyedLoop.

Context {V : Type} (key : V -> string).

(** [d = {}; for x in l: d[key(x)] = x] *)
Local Abbreviation filled l :=
  (foldl (fun (d : gmap string V) x => <[key x := x]> d) ∅ l).

Lemma filled_snoc (l : list V) (x : V) :
  filled (l ++ [x]) = <[key x := x]> (filled l).
Proof. rewrite foldl_app. reflexivity. Qed.

Lemma filled_lookup_Some (l : list V) (k : string) (x : V) :
  filled l !! k = Some x -> x ∈ l /\ key x = k.
Proof.
  induction l as [|y l IH] using rev_ind.
  - cbn [foldl]. rewrite lookup_empty. discriminate.
  - rewrite filled_snoc.
    destruct (decide (key y = k)) as [<-|Hne].
    + rewrite lookup_insert_eq. intros [= <-]. split; [|reflexivity].
      apply elem_of_app. right. apply list_elem_of_singleton. reflexivity.
    + rewrite lookup_insert_ne by exact Hne. intros H.
      destruct (IH H) as [Hin Hk]. split; [|exact Hk].
      apply elem_of_app. left. exact Hin.
Qed.

Lemma filled_lookup_None (l : list V) (k : string) :
  filled l !! k = None <-> k ∉ map key l.
Proof.
  induction l as [|y l IH] using rev_ind.
  - cbn [foldl map]. rewrite lookup_empty. split; [|reflexivity].
    intros _ H. apply elem_of_nil in H. exact H.
  - rewrite filled_snoc, map_app. cbn [map]. rewrite not_elem_of_app.
    destruct (decide (key y = k)) as [<-|Hne].
    + rewrite lookup_insert_eq. split; [discriminate|].
      intros [_ H]. exfalso. apply H. apply list_elem_of_singleton. reflexivity.
    + rewrite lookup_insert_ne by exact Hne. rewrite IH.
      split; [|intros [H _]; exact H].
      intros H. split; [exact H|]. intros H'.
      apply list_elem_of_singleton in H'. congruence.
Qed.

(** The last element under a key is the one that the dictionary keeps. *)
Lemma filled_last_wins (l1 l2 : list V) (x : V) :
  key x ∉ map key l2 -> filled (l1 ++ x :: l2) !! key x = Some x.
Proof.
  induction l2 as [|y l2 IH] using rev_ind; intros Hx.
  - rewrite filled_snoc.
    apply lookup_insert_eq.
  - rewrite map_app, not_elem_of_app in Hx. destruct Hx as [Hx Hy].
    cbn [map] in Hy.
    replace (l1 ++ x :: l2 ++ [y])%list with ((l1 ++ x :: l2) ++ [y])%list
      by (rewrite <- app_assoc; reflexivity).
    rewrite filled_snoc, lookup_insert_ne; [apply IH; exact Hx|].
    intros E. apply Hy. apply list_elem_of_singleton. congruence.
Qed.

Lemma filled_size (l : list V) :
  (size (filled l) <= length l)%nat /\
  (size (filled l) = length l <-> NoDup (map key l)).
Proof.
  induction l as [|y l [IHle IHeq]] using rev_ind.
  - cbn [foldl map length]. rewrite map_size_empty.
    split; [lia|]. split; [intros _; constructor|reflexivity].
  - rewrite filled_snoc, map_app, length_app, NoDup_app. cbn [map length].
    destruct (filled l !! key y) as [z|] eqn:E.
    + rewrite map_size_insert_Some by eauto.
      split; [lia|]. split; [lia|].
      intros (_ & Hdis & _). exfalso.
      assert (Hin : key y ∈ map key l).
      { destruct (decide (key y ∈ map key l)) as [H|H]; [exact H|].
        apply filled_lookup_None in H. congruence. }
      apply (Hdis _ Hin). apply list_elem_of_singleton. reflexivity.
    + rewrite map_size_insert_None by exact E.
      apply filled_lookup_None in E.
      split; [lia|]. split.
      * intros H. split; [apply IHeq; lia|]. split; [|apply NoDup_singleton].
        intros k Hk Hk'. apply list_elem_of_singleton in Hk'. congruence.
      * intros (Hnd & _ & _). apply IHeq in Hnd. lia.
Qed.

End KeyedLoop.

(** ** [Strategy.__init__] *)

(** X4: the legs of a strategy are kept by [leg_id].  Every entry is one of
    the legs given, under its own id; the id of every leg given is there;
    when several legs have one id the last of them is kept, so the strategy
    holds as many legs as it was given exactly when their ids differ. *)
Theorem X4_strategy_legs
    (strftime : Py.datetime -> string) (asset : Asset.t)
    (strategy_type : StrategyType) (legs : list Leg.t) (now : Py.datetime) :
  let s := Strategy.__init__ strftime asset strategy_type legs now in
  (forall id leg, Strategy.legs s !! id = Some leg ->
     leg ∈ legs /\ Leg.leg_id leg = id) /\
  (forall leg, leg ∈ legs -> is_Some (Strategy.legs s !! Leg.leg_id leg)) /\
  (forall l1 leg l2, legs = l1 ++ leg :: l2 ->
     Leg.leg_id leg ∉ map Leg.leg_id l2 ->
     Strategy.legs s !! Leg.leg_id leg = Some leg) /\
  (size (Strategy.legs s) <= length legs)%nat /\
  (size (Strategy.legs s) = length legs <-> NoDup (map Leg.leg_id legs)).
Proof.
  cbv zeta. cbn [Strategy.__init__ Strategy.legs].
  split; [apply filled_lookup_Some|]. split.
  - intros leg Hleg.
    destruct (foldl _ ∅ legs !! Leg.leg_id leg) eqn:E; [eauto|].
    apply filled_lookup_None in E. exfalso. apply E.
    apply list_elem_of_fmap. exists leg. split; [reflexivity|exact Hleg].
  - split; [intros l1 leg l2 ->; apply filled_last_wins|].
    apply filled_size.
Qed.

(** Two legs on one contract, with different factors, have one id: the
    strategy keeps the second. *)
Lemma X4_strategy_legs_witness :
  let s := Strategy.__init__ (fun _ => "19-10-2018 10:00:00") SPY SellNakedPut
             [short_put 0.5%float 2%float; short_put 0.25%float 3%float] 0 in
  Strategy.legs s !! "SPY SELL P 250.0 19-10-2018"
  = Some (short_put 0.25%float 3%float).
Proof.
  exact (proj1 (proj2 (proj2
           (X4_strategy_legs (fun _ => "19-10-2018 10:00:00") SPY SellNakedPut
              [short_put 0.5%float 2%float; short_put 0.25%float 3%float] 0)))
           [short_put 0.5%float 2%float] (short_put 0.25%float 3%float) []
           eq_refl (not_elem_of_nil _)).
Defined.

(** ** [initialize_assets], continued *)

Section InitializeAssetsMore.

Variable CURRENCY : Currency.
Variable qualifyContracts : list Contract.t -> list Contract.t.

Local Abbreviation requested_contracts :=
  (IBDataAdapter.requested_contracts CURRENCY).
Local Abbreviation initialize_assets :=
  (IBDataAdapter.initialize_assets CURRENCY qualifyContracts).

Lemma initialize_assets_Ok (assets : list Asset.t) (d : gmap string Contract.t) :
  initialize_assets assets = Ok d ->
  length (qualifyContracts (requested_contracts assets)) = length assets /\
  d = IBDataAdapter.by_symbol (qualifyContracts (requested_contracts assets)).
Proof.
  unfold IBDataAdapter.initialize_assets.
  destruct (Nat.eqb_spec (length (qualifyContracts (requested_contracts assets)))
                         (length assets)) as [E|E]; [|discriminate].
  intros [= <-]. split; [exact E|reflexivity].
Qed.

Lemma qualified_symbols (assets : list Asset.t) :
  answers_requested qualifyContracts ->
  length (qualifyContracts (requested_contracts assets)) = length assets ->
  map Contract.symbol (qualifyContracts (requested_contracts assets))
  = map Asset.code assets.
Proof.
  intros Hq Hlen.
  pose proof (Hq (requested_contracts assets)) as Hsub.
  pose proof (requested_contracts_length CURRENCY assets) as Hle.
  pose proof (sublist_length _ _ Hsub) as Hle'.
  rewrite !length_map in Hle'.
  rewrite <- (requested_contracts_symbols CURRENCY) by lia.
  apply sublist_same_length; [exact Hsub|].
  rewrite !length_map. lia.
Qed.

(** X5: when [initialize_assets] returns, the broker answering with
    contracts that were requested, the keys of the mapping are the codes of
    the assets; assets that share a code share one entry, so the mapping
    has as many entries as there are assets exactly when the codes
    differ. *)
Theorem X5_initialize_assets_codes
    (assets : list Asset.t) (d : gmap string Contract.t) :
  answers_requested qualifyContracts ->
  initialize_assets assets = Ok d ->
  (forall k, is_Some (d !! k) <-> k ∈ map Asset.code assets) /\
  (size d <= length assets)%nat /\
  (size d = length assets <-> NoDup (map Asset.code assets)).
Proof.
  intros Hq Hd. apply initialize_assets_Ok in Hd as [Hlen ->].
  pose proof (qualified_symbols assets Hq Hlen) as Hsym.
  unfold IBDataAdapter.by_symbol. rewrite <- Hsym, <- Hlen.
  split; [|apply (filled_size Contract.symbol)].
  intros k.
  pose proof (filled_lookup_None Contract.symbol
                (qualifyContracts (requested_contracts assets)) k) as Hnone.
  destruct (foldl _ ∅ _ !! k) eqn:E.
  - split; [|eauto]. intros _.
    destruct (decide (k ∈ map Contract.symbol
                        (qualifyContracts (requested_contracts assets))))
      as [H|H]; [exact H|].
    apply Hnone in H. discriminate H.
  - split; [intros [? ?]; discriminate|].
    intros H. exfalso. apply (proj1 Hnone); [reflexivity|exact H].
Qed.

Lemma requested_fewer (assets : list Asset.t) (a : Asset.t) :
  a ∈ assets -> contract_of CURRENCY a = [] ->
  (length (requested_contracts assets) < length assets)%nat.
Proof.
  rewrite requested_contracts_flat_map. intros Ha Hnone.
  induction assets as [|b assets IH]; [apply elem_of_nil in Ha; destruct Ha|].
  cbn [flat_map length]. rewrite length_app.
  pose proof (requested_contracts_length CURRENCY assets) as Hle.
  rewrite requested_contracts_flat_map in Hle.
  apply elem_of_cons in Ha as [<-|Ha].
  - rewrite Hnone. cbn [length]. lia.
  - specialize (IH Ha).
    destruct (contract_of_cases CURRENCY b) as [-> | (c & -> & _)];
      cbn [length]; lia.
Qed.

(** X6: an asset that is neither a stock nor an index is requested no
    contract, so a watch list that holds one makes [initialize_assets]
    raise, the broker answering with no more contracts than it was
    asked. *)
Theorem X6_initialize_assets_other_type (assets : list Asset.t) (a : Asset.t) :
  (forall contracts,
     (length (qualifyContracts contracts) <= length contracts)%nat) ->
  a ∈ assets ->
  Asset.asset_type a <> Stock -> Asset.asset_type a <> Index ->
  initialize_assets assets = Raise (ValueError "Error: ambiguous contracts").
Proof.
  intros Hq Ha Hs Hi.
  assert (Hnone : contract_of CURRENCY a = []).
  { unfold contract_of. destruct (Asset.asset_type a); congruence. }
  pose proof (requested_fewer assets a Ha Hnone) as Hlt.
  pose proof (Hq (requested_contracts assets)) as Hle.
  unfold IBDataAdapter.initialize_assets.
  destruct (Nat.eqb_spec (length (qualifyContracts (requested_contracts assets)))
                         (length assets)) as [E|E]; [lia|reflexivity].
Qed.

End InitializeAssetsMore.

(** SPY listed twice is qualified twice and kept once. *)
Lemma X5_initialize_assets_codes_witness :
  exists d : gmap string Contract.t,
    IBDataAdapter.initialize_assets USD qualify_all [SPY; SPY] = Ok d /\
    size d <> length [SPY; SPY].
Proof.
  eexists. split; [reflexivity|].
  intros H.
  apply (X5_initialize_assets_codes USD qualify_all [SPY; SPY] _
           (fun cs => reflexivity _) eq_refl) in H.
  apply NoDup_cons in H as [H _]. apply H. apply list_elem_of_here.
Defined.

(** A future next to a stock: nothing is initialized. *)
Lemma X6_initialize_assets_other_type_witness :
  IBDataAdapter.initialize_assets USD qualify_all [SPY; ES]
  = Raise (ValueError "Error: ambiguous contracts").
Proof.
  apply (X6_initialize_assets_other_type USD qualify_all [SPY; ES] ES).
  - intros cs. reflexivity.
  - apply list_elem_of_further, list_elem_of_here.
  - discriminate.
  - discriminate.
Defined.

(** ** Identifiers *)

Lemma append_inj_r (s a b : string) : s +:+ a = s +:+ b -> a = b.
Proof.
  induction s as [|c s IH]; cbn [String.append]; [trivial|].
  intros [= H]. exact (IH H).
Qed.

(** X7: two orders made from one reference at one time have the same
    [order_id] exactly when they have the same role: the three orders of a
    bracket are told apart, two orders of one role are not, whatever their
    sides, quantities and prices. *)
Theorem X7_order_id_per_role
    (strftime : Py.datetime -> string) (reference : string) (now : Py.datetime)
    asset1 rol1 ownership1 quantity1 price1 type1 expiration1 strike1 right1
    asset2 rol2 ownership2 quantity2 price2 type2 expiration2 strike2 right2 :
  OrderData.order_id
    (OrderData.__init__ strftime asset1 rol1 ownership1 quantity1 price1 type1
       expiration1 strike1 right1 reference now)
  = OrderData.order_id
      (OrderData.__init__ strftime asset2 rol2 ownership2 quantity2 price2
         type2 expiration2 strike2 right2 reference now)
  <-> rol1 = rol2.
Proof.
  cbn [OrderData.__init__ OrderData.order_id]. split.
  - intros H. apply append_inj_r in H.
    destruct rol1, rol2; try reflexivity; cbn in H; discriminate H.
  - intros ->. reflexivity.
Qed.

Section PositionOfLeg.

Variable parse_ib_date : string -> result Py.date.
Variable str_round1 : float -> string.
Variable strftime_dmY : Py.date -> string.

(** X8: a position event on the contract of a leg, with the sign of the
    side of the leg, is translated to a position of which the
    [position_id] is the [leg_id] of the leg. *)
Theorem X8_position_id_is_leg_id
    (item : IBPosition.t)
    (asset : Asset.t) (ownership : OwnershipType) (right : RightType)
    (expiration : Py.date) (strike : float) (multiplier : Z)
    (strategy_price : float) (ratio : Z) (currency : Currency)
    (take_profit_factor stop_loss_factor : float) (now : Py.datetime) :
  let contract := IBPosition.contract item in
  let leg :=
    Leg.__init__ str_round1 strftime_dmY asset ownership right expiration
      strike multiplier strategy_price ratio currency take_profit_factor
      stop_loss_factor now in
  is_Some (IBTranslator._sectype_translation !! Contract.secType contract) ->
  Contract.symbol contract = Asset.code asset ->
  Contract.right contract = RightType_value right ->
  Contract.strike contract = strike ->
  Contract.lastTradeDateOrContractMonth contract <> "" ->
  parse_ib_date (Contract.lastTradeDateOrContractMonth contract) = Ok expiration ->
  (ownership = Buyer /\ 0 < IBPosition.position item \/
   ownership = Seller /\ IBPosition.position item < 0) ->
  exists p,
    IBTranslator.translate_position parse_ib_date str_round1 strftime_dmY item
    = Ok p /\
    PositionData.position_id p = Leg.leg_id leg /\
    PositionData.ownership p = Some ownership /\
    PositionData.quantity p = Z.abs (IBPosition.position item).
Proof.
  intros contract leg [ty Hty] Hsym Hright Hstrike Hdate Hparse Hsign.
  subst contract leg. unfold IBTranslator.translate_position.
  unfold Py.getitem at 1. rewrite Hty. cbn [mbind result_bind].
  unfold IBTranslator.translate_expiration.
  destruct (Contract.lastTradeDateOrContractMonth (IBPosition.contract item))
    as [|c ds] eqn:Eds; [congruence|].
  cbn [Py.truthy]. rewrite Hparse. cbn [mbind result_bind mret result_ret].
  rewrite Hright, Hsym, Hstrike.
  assert (Hr : IBTranslator.translate_right (RightType_value right)
               = Ok (Some right)) by (destruct right; reflexivity).
  rewrite Hr. cbn [mbind result_bind].
  assert (Ho : (if 0 <? IBPosition.position item then Some Buyer
                else if IBPosition.position item <? 0 then Some Seller
                else None) = Some ownership).
  { destruct Hsign as [[-> H]|[-> H]].
    - destruct (Z.ltb_spec 0 (IBPosition.position item)); [reflexivity|lia].
    - destruct (Z.ltb_spec 0 (IBPosition.position item)); [lia|].
      destruct (Z.ltb_spec (IBPosition.position item) 0); [reflexivity|lia]. }
  rewrite Ho. eexists. split; [reflexivity|].
  split; [reflexivity|]. split; reflexivity.
Qed.

End PositionOfLeg.

Lemma X8_position_id_is_leg_id_witness :
  exists p,
    IBTranslator.translate_position parse_20181019 (fun _ => "250.0")
      (fun _ => "19-10-2018") (put_position (-3)) = Ok p /\
    PositionData.position_id p = "SPY SELL P 250.0 19-10-2018" /\
    PositionData.ownership p = Some Seller /\
    PositionData.quantity p = 3.
Proof.
  apply (X8_position_id_is_leg_id parse_20181019 (fun _ => "250.0")
           (fun _ => "19-10-2018") (put_position (-3)) SPY Seller Put
           (Py.Date 2018 10 19) 250%float 100 2%float 1 USD 0.5%float 2%float 0).
  - eexists. reflexivity.
  - reflexivity.
  - reflexivity.
  - reflexivity.
  - discriminate.
  - reflexivity.
  - right. split; [reflexivity|]. reflexivity.
Defined.

(** ** The market price, continued *)

Section MarketPriceSource.

Variables (code : string) (asset_type : AssetType).
Variables (high low close bid bid_size ask ask_size last last_size volume : float).
Variable time : option Py.datetime.

Let q : AssetData.t :=
  AssetData.__init__ code asset_type high low close bid bid_size ask ask_size
    last last_size volume time.

(** X9: the market price of a snapshot is its last price, its midpoint or
    its previous close, and when it is a NaN or -1 it is the previous
    close: the snapshot has no price only when it has no previous
    close. *)
Theorem X9_market_price_source :
  (AssetData.market_price q = last \/
   AssetData.market_price q = AssetData.midpoint q \/
   AssetData.market_price q = close) /\
  (Py.is_nan (AssetData.market_price q)
   || Py.eq (AssetData.market_price q) (-1)%float = true ->
   AssetData.market_price q = close).
Proof.
  subst q.
  cbn [AssetData.__init__ AssetData.market_price AssetData.midpoint].
  set (mid := PrimFloat.div (PrimFloat.add bid ask) 2%float).
  unfold AssetData.derive_market_price.
  set (mp1 := if Py.is_nan mid || Py.le bid last && Py.le last ask
              then last else Py.nan).
  set (mp2 := if Py.is_nan mp1 then mid else mp1).
  assert (H2 : mp2 = last \/ mp2 = mid).
  { subst mp2 mp1.
    destruct (Py.is_nan mid || Py.le bid last && Py.le last ask).
    - destruct (Py.is_nan last); [right|left]; reflexivity.
    - rewrite is_nan_nan. right. reflexivity. }
  destruct (Py.is_nan mp2 || Py.eq mp2 (-1)%float) eqn:E.
  - split; [right; right; reflexivity|reflexivity].
  - split; [|rewrite E; discriminate].
    destruct H2 as [->| ->]; [left|right; left]; reflexivity.
Qed.

End MarketPriceSource.

(** A snapshot without any data, -1 everywhere: its price is its close. *)
Lemma X9_market_price_source_witness :
  AssetData.market_price
    (AssetData.of_quote "SPY" Stock (-1) (-1) (-1) (-1) None) = (-1)%float.
Proof.
  exact (proj2 (X9_market_price_source "SPY" Stock Py.nan Py.nan (-1) (-1)
                  Py.nan (-1) Py.nan (-1) Py.nan Py.nan None) eq_refl).
Defined.

(** ** The [Asset] object, continued *)

Lemma assign_all_data (l : list Asset.assignment) (a : Asset.t) :
  Asset._data (Asset.assign_all a l)
  = foldl
      (fun held x =>
         match x with
         | Asset.Assign_current values => Some values
         | _ => held
         end)
      (Asset._data a) l.
Proof.
  unfold Asset.assign_all. revert a.
  induction l as [|x l IH]; intros a; cbn [foldl]; [reflexivity|].
  rewrite IH. destruct x; reflexivity.
Qed.

(** X10: the property [market_price] of an asset raises [AttributeError]
    as long as no snapshot has been assigned to [current]; afterwards it is
    the market price of the snapshot assigned last, whatever historical
    data has been assigned since. *)
Theorem X10_asset_market_price
    (CURRENCY : Currency) (code : string) (asset_type : AssetType)
    (data_source : option DataSource) (currency : option Currency)
    (l : list Asset.assignment) :
  Asset.market_price
    (Asset.assign_all
       (Asset.__init__ CURRENCY code asset_type data_source currency) l)
  = match last_current l with
    | Some values => Ok (AssetData.market_price values)
    | None => Raise (AttributeError "market_price")
    end.
Proof.
  unfold Asset.market_price. rewrite assign_all_data. reflexivity.
Qed.

(** X11: once the time of an update is recorded, [historical_is_updated]
    and [historical_IV_is_updated] answer [True] exactly when [now] is not
    within the day that follows the update: a whole day or more has gone
    by, or the update lies in the future. *)
Theorem X11_is_updated_after_a_day (a : Asset.t) (t now : Py.datetime) :
  (Asset._historical_updated a = Some t ->
   (Asset.historical_is_updated a now = true
    <-> ~ (t <= now < t + Py.microseconds_per_day))) /\
  (Asset._historical_IV_updated a = Some t ->
   (Asset.historical_IV_is_updated a now = true
    <-> ~ (t <= now < t + Py.microseconds_per_day))).
Proof.
  assert (H : forall d : Z,
             (if negb (Py.days d =? 0) then true else false) = true
             <-> ~ (0 <= d < Py.microseconds_per_day)).
  { intros d. unfold Py.days.
    pose proof (Z.div_small_iff d Py.microseconds_per_day ltac:(discriminate))
      as Hs.
    assert (Hm : 0 < Py.microseconds_per_day) by reflexivity.
    destruct (Z.eqb_spec (d / Py.microseconds_per_day) 0) as [E|E];
      cbn [negb]; split; intros H; try discriminate; try reflexivity.
    - exfalso. apply H. apply Hs in E. lia.
    - intros Hd. apply E, Hs. lia. }
  unfold Asset.historical_is_updated, Asset.historical_IV_is_updated.
  split; intros ->; rewrite H; lia.
Qed.

Lemma X11_is_updated_after_a_day_witness :
  Asset.historical_is_updated (SPY_updated_at 1000) (1000 + 3600000000) = false /\
  Asset.historical_is_updated (SPY_updated_at 1000) (1000 + 86400000000) = true /\
  Asset.historical_IV_is_updated (SPY_updated_at 1000) 0 = true.
Proof.
  split; [|split].
  - apply not_true_is_false. intros H.
    apply (proj1 (X11_is_updated_after_a_day (SPY_updated_at 1000) 1000
                    (1000 + 3600000000)) eq_refl) in H.
    apply H. unfold Py.microseconds_per_day. lia.
  - apply (proj1 (X11_is_updated_after_a_day (SPY_updated_at 1000) 1000
                    (1000 + 86400000000)) eq_refl).
    unfold Py.microseconds_per_day. lia.
  - apply (proj2 (X11_is_updated_after_a_day (SPY_updated_at 1000) 1000 0)
             eq_refl).
    unfold Py.microseconds_per_day. lia.
Defined.

(** ** The brackets of [_place_SNP] and the identifiers of orders *)

Lemma place_SNP_placed (contract : Contract.t) (order : IBBrokerAdapter.order)
    (b : Broker.t) :
  let id := Broker.reqIdSeq b in
  let side := if IBBrokerAdapter.OrderAction_eqb
                   (IBBrokerAdapter.action order) IBBrokerAdapter.Buy
              then "BUY" else "SELL" in
  let reverse := if String.eqb side "SELL" then "BUY" else "SELL" in
  IBBrokerAdapter._place_SNP contract order b
  = {| Broker.reqIdSeq := id + 3;
       Broker.placed :=
         Broker.placed b ++
         [(contract,
           IBOrder.LimitOrder side (IBBrokerAdapter.quantity order)
             (IBBrokerAdapter.price order) (IBBrokerAdapter.reference order)
             id false 0);
          (contract,
           IBOrder.LimitOrder reverse (IBBrokerAdapter.quantity order)
             (PrimFloat.div (IBBrokerAdapter.price order) 2%float)
             (IBBrokerAdapter.reference order) (id + 1) false id);
          (contract,
           IBOrder.StopOrder reverse (IBBrokerAdapter.quantity order)
             (PrimFloat.mul (IBBrokerAdapter.price order) 2%float)
             (IBBrokerAdapter.reference order) (id + 2) true id)] |}.
Proof.
  cbv zeta. unfold IBBrokerAdapter._place_SNP.
  cbn [Broker.getReqId IBOrder.orderId IBOrder.LimitOrder].
  unfold Broker.placeOrder. cbn [Broker.placed Broker.reqIdSeq].
  rewrite <- !app_assoc. cbn [app].
  replace (Broker.reqIdSeq b + 1 + 1) with (Broker.reqIdSeq b + 2) by lia.
  replace (Broker.reqIdSeq b + 2 + 1) with (Broker.reqIdSeq b + 3) by lia.
  reflexivity.
Qed.


(** X12: a bracket that [_place_SNP] builds is three orders on the one
    contract, placed after the orders that were there: the entry, the
    take-profit and the stop-loss, in this order, with the next three
    identifiers of the session; the take-profit and the stop-loss name the
    entry as their parent, the three carry the reference of the order, and
    only the stop-loss, the last one, is marked for transmission. *)
Theorem X12_bracket_of_three (contract : Contract.t)
    (order : IBBrokerAdapter.order) (b : Broker.t) :
  exists parent take_profit stop_loss,
    Broker.placed (IBBrokerAdapter._place_SNP contract order b)
    = Broker.placed b
        ++ [(contract, parent); (contract, take_profit); (contract, stop_loss)] /\
    Broker.reqIdSeq (IBBrokerAdapter._place_SNP contract order b)
    = Broker.reqIdSeq b + 3 /\
    IBOrder.orderId parent = Broker.reqIdSeq b /\
    IBOrder.orderId take_profit = Broker.reqIdSeq b + 1 /\
    IBOrder.orderId stop_loss = Broker.reqIdSeq b + 2 /\
    IBOrder.parentId parent = 0 /\
    IBOrder.parentId take_profit = IBOrder.orderId parent /\
    IBOrder.parentId stop_loss = IBOrder.orderId parent /\
    IBOrder.orderType parent = "LMT" /\
    IBOrder.orderType take_profit = "LMT" /\
    IBOrder.orderType stop_loss = "STP" /\
    Forall (fun o => IBOrder.orderRef o = IBBrokerAdapter.reference order)
      [parent; take_profit; stop_loss] /\
    map IBOrder.transmit [parent; take_profit; stop_loss] = [false; false; true].
Proof.
  rewrite place_SNP_placed. cbv zeta. eexists _, _, _.
  split; [reflexivity|]. cbn.
  repeat split; repeat constructor.
Qed.




(** ** The translators, continued *)

Lemma bind_Ok {A B} (m : result A) (k : A -> result B) (b : B) :
  m ≫= k = Ok b -> exists a, m = Ok a /\ k a = Ok b.
Proof. destruct m as [a|e]; [eauto|discriminate]. Qed.

Lemma getitem_Ok {V} (d : gmap string V) (k : string) (v : V) :
  Py.getitem d k = Ok v -> d !! k = Some v.
Proof. unfold Py.getitem. destruct (d !! k); congruence. Qed.

(** [split] yields at least one part, and joining the parts with the
    separator gives the string back. *)
Lemma split_not_nil (sep : Ascii.ascii) (s : string) : Py.split sep s <> [].
Proof.
  destruct s as [|c s]; cbn [Py.split]; [discriminate|].
  destruct (Ascii.eqb c sep); [discriminate|].
  destruct (Py.split sep s); discriminate.
Qed.

Lemma join_split (sep : Ascii.ascii) (s : string) :
  Py.join (String sep "") (Py.split sep s) = s.
Proof.
  induction s as [|c s IH]; [reflexivity|].
  cbn [Py.split].
  pose proof (split_not_nil sep s) as Hne.
  destruct (Py.split sep s) as [|w ws] eqn:E; [congruence|].
  destruct (Ascii.eqb_spec c sep) as [->|Hc].
  - rewrite <- IH. reflexivity.
  - rewrite <- IH. destruct ws; reflexivity.
Qed.

Lemma strategy_translation_Some (k : string) (ty : StrategyType) :
  IBTranslator._strategy_translation !! k = Some ty -> k = "SNP".
Proof.
  unfold IBTranslator._strategy_translation. cbn [list_to_map foldr].
  intros H. apply lookup_insert_Some in H as [[<- _]|[_ H]]; [reflexivity|].
  rewrite lookup_empty in H. discriminate H.
Qed.

Section TranslationMore.

Variable parse_ib_date : string -> result Py.date.
Variable str_round1 : float -> string.
Variable strftime_dmY : Py.date -> string.
Variable TradeData : Type.
Variable TradeData_init : IBTranslator.trade_kwargs -> result TradeData.

Local Abbreviation translate_position :=
  (IBTranslator.translate_position parse_ib_date str_round1 strftime_dmY).
Local Abbreviation translate_trade :=
  (IBTranslator.translate_trade parse_ib_date TradeData TradeData_init).

(** X14: a position in a contract that has no right or no expiration, a
    stock for one, makes [translate_position] raise whatever the quantity
    is: only positions in options are translated. *)
Theorem X14_position_without_right_raises (item : IBPosition.t) :
  Contract.right (IBPosition.contract item) = "" \/
  Contract.lastTradeDateOrContractMonth (IBPosition.contract item) = "" ->
  raises (translate_position item).
Proof.
  intros H. unfold IBTranslator.translate_position.
  run_statement. run_statement. run_statement.
  unfold PositionData.__init__.
  destruct (if 0 <? IBPosition.position item then Some Buyer
            else if IBPosition.position item <? 0 then Some Seller else None);
    cbn [PositionData.attr mbind result_bind]; [|apply raises_Raise].
  destruct H as [H|H].
  - rewrite H in E1. cbn in E1. injection E1 as <-.
    cbn [PositionData.attr mbind result_bind]. apply raises_Raise.
  - rewrite H in E0. cbn in E0. injection E0 as <-.
    destruct a1; cbn [PositionData.attr mbind result_bind]; apply raises_Raise.
Qed.

(** X15: a trade of which the order has no reference makes
    [translate_trade] raise: the parts of the reference are read whether
    or not they were assigned. *)
Theorem X15_trade_without_reference_raises (item : Trade.t) (now : Py.datetime) :
  IBOrder.orderRef (Trade.order item) = "" ->
  raises (translate_trade item now).
Proof.
  intros H. unfold IBTranslator.translate_trade.
  do 4 run_statement. rewrite H. cbn [Py.truthy mbind result_bind mret result_ret].
  run_statement. apply raises_Raise.
Qed.

(** With a constructor that returns, [translate_trade] returns what the
    constructor does, and has given it the parts of a reference
    [algorithm-a_SNP_b_c-rol] and the translations of the instrument type,
    the action and the status. *)
Lemma translate_trade_returns
    (item : Trade.t) (now : Py.datetime) (t : TradeData) :
  translate_trade item now = Ok t ->
  exists algorithm a b c rol kw,
    IBOrder.orderRef (Trade.order item)
    = algorithm +:+ "-" +:+ (a +:+ "_" +:+ "SNP" +:+ "_" +:+ b +:+ "_" +:+ c)
        +:+ "-" +:+ rol /\
    TradeData_init kw = Ok t /\
    IBTranslator.kw_algorithm kw = algorithm /\
    IBTranslator.kw_strategy_id kw = a +:+ "_" +:+ "SNP" +:+ "_" +:+ b +:+ "_" +:+ c /\
    IBTranslator.kw_strategy_type kw = SellNakedPut /\
    IBTranslator.kw_rol kw = rol /\
    IBTranslator.kw_code kw = Contract.symbol (Trade.contract item) /\
    IBTranslator._sectype_translation !! Contract.secType (Trade.contract item)
    = Some (IBTranslator.kw_asset_type kw) /\
    IBTranslator._ownership_translation !! IBOrder.action (Trade.order item)
    = Some (IBTranslator.kw_ownership kw) /\
    IBTranslator._order_status_translation
      !! IBOrderStatus.status (Trade.orderStatus item)
    = Some (IBTranslator.kw_order_status kw) /\
    IBTranslator.kw_quantity kw = IBOrderStatus.filled (Trade.orderStatus item) /\
    IBTranslator.kw_price kw = IBOrderStatus.avgFillPrice (Trade.orderStatus item).
Proof.
  unfold IBTranslator.translate_trade. intros H.
  apply bind_Ok in H as (asset_type & Hty & H). apply getitem_Ok in Hty.
  apply bind_Ok in H as (ownership & Hown & H). apply getitem_Ok in Hown.
  apply bind_Ok in H as (expiration & _ & H).
  apply bind_Ok in H as (right & _ & H).
  apply bind_Ok in H as (ref & Href & H).
  destruct ref as [[[algorithm strategy_id] strategy_type] rol].
  apply bind_Ok in H as (order_status & Hst & H). apply getitem_Ok in Hst.
  destruct (Py.truthy (IBOrder.orderRef (Trade.order item)));
    [|injection Href as <- <- <- <-; discriminate H].
  apply bind_Ok in Href as ([[alg sid] r] & Hsplit & Href).
  apply bind_Ok in Href as ([[[a st] b] c] & Hsplit' & Href).
  apply bind_Ok in Href as (ty & Hstrat & Href). apply getitem_Ok in Hstrat.
  injection Href as <- <- <- <-.
  cbn [Py.local mbind result_bind] in H.
  apply strategy_translation_Some in Hstrat as ->.
  unfold Py.unpack3 in Hsplit.
  destruct (Py.split "-" (IBOrder.orderRef (Trade.order item)))
    as [|x1 [|x2 [|x3 [|x4 l]]]] eqn:E; try discriminate Hsplit.
  injection Hsplit as -> -> ->.
  unfold Py.unpack4 in Hsplit'.
  destruct (Py.split "_" sid) as [|y1 [|y2 [|y3 [|y4 [|y5 l]]]]] eqn:E';
    try discriminate Hsplit'.
  injection Hsplit' as -> -> -> ->.
  pose proof (join_split "-" (IBOrder.orderRef (Trade.order item))) as J.
  rewrite E in J. cbn [Py.join] in J.
  pose proof (join_split "_" sid) as J'. rewrite E' in J'. cbn [Py.join] in J'.
  destruct ty.
  exists alg, a, b, c, r. eexists. split; [|split; [exact H|]].
  - rewrite <- J. rewrite J'. reflexivity.
  - cbn. rewrite J'. repeat split; assumption.
Qed.

End TranslationMore.

(** A position of a hundred shares is not translated. *)
Lemma X14_position_without_right_raises_witness :
  raises (IBTranslator.translate_position parse_20181019 (fun _ => "0.0")
            (fun _ => "") (stock_position 100)).
Proof.
  apply (X14_position_without_right_raises parse_20181019 (fun _ => "0.0")
           (fun _ => "") (stock_position 100)).
  left. reflexivity.
Defined.

Lemma X15_trade_without_reference_raises_witness :
  raises (IBTranslator.translate_trade parse_20181019 IBTranslator.trade_kwargs
            Ok (stock_trade "STK" "BUY" "Filled") 0).
Proof.
  apply (X15_trade_without_reference_raises parse_20181019
           IBTranslator.trade_kwargs Ok (stock_trade "STK" "BUY" "Filled") 0).
  reflexivity.
Defined.

(** ** [translate_trade] on the [TradeData] of [data_objects.py] *)

Section TradeDataCall.

Variable parse_ib_date : string -> result Py.date.

Local Abbreviation translate_trade :=
  (IBTranslator.translate_trade parse_ib_date TradeData.t
     IBTranslator.TradeData_call).

Lemma TradeData_call_raises (kw : IBTranslator.trade_kwargs) :
  IBTranslator.TradeData_call kw = Raise (TypeError "code").
Proof. reflexivity. Qed.

Lemma split_truthy (sep : Ascii.ascii) (s a b : string) (l : list string) :
  Py.split sep s = a :: b :: l -> Py.truthy s = true.
Proof. destruct s; [discriminate|reflexivity]. Qed.

(** X16: [translate_trade] never returns a [TradeData].  The class of
    [data_objects.py] takes [order_id], [status], [remaining] and
    [commission], and the call names [code] first: for a trade of which
    the instrument type, the action and the status are in their tables,
    the expiration and the right are translated, and the reference is
    [algorithm-a_SNP_b_c-rol], the call is reached and raises [TypeError];
    for any other trade an exception comes before. *)
Theorem X16_translate_trade_never_returns (item : Trade.t) (now : Py.datetime) :
  raises (translate_trade item now) /\
  (forall asset_type ownership expiration right order_status
          algorithm strategy_id rol a b c,
     IBTranslator._sectype_translation !! Contract.secType (Trade.contract item)
     = Some asset_type ->
     IBTranslator._ownership_translation !! IBOrder.action (Trade.order item)
     = Some ownership ->
     IBTranslator.translate_expiration parse_ib_date
       (Contract.lastTradeDateOrContractMonth (Trade.contract item))
     = Ok expiration ->
     IBTranslator.translate_right (Contract.right (Trade.contract item))
     = Ok right ->
     Py.split "-" (IBOrder.orderRef (Trade.order item))
     = [algorithm; strategy_id; rol] ->
     Py.split "_" strategy_id = [a; "SNP"; b; c] ->
     IBTranslator._order_status_translation
       !! IBOrderStatus.status (Trade.orderStatus item) = Some order_status ->
     translate_trade item now = Raise (TypeError "code")).
Proof.
  split.
  - destruct (translate_trade item now) as [t|e] eqn:E; [|exists e; reflexivity].
    destruct (translate_trade_returns parse_ib_date TradeData.t
                IBTranslator.TradeData_call item now t E)
      as (algorithm & a & b & c & rol & kw & _ & Hinit & _).
    rewrite TradeData_call_raises in Hinit. discriminate Hinit.
  - intros asset_type ownership expiration right order_status
      algorithm strategy_id rol a b c Hty Hown Hexp Hright Href Hsid Hst.
    unfold IBTranslator.translate_trade, Py.getitem.
    rewrite Hty, Hown. cbn [mbind result_bind].
    rewrite Hexp, Hright. cbn [mbind result_bind].
    rewrite (split_truthy _ _ _ _ _ Href), Href.
    cbn [Py.unpack3 mbind result_bind]. rewrite Hsid.
    cbn [Py.unpack4 mbind result_bind]. rewrite Hst. reflexivity.
Qed.

End TradeDataCall.

(** The sale of the sample put, filled and with a reference of three
    parts, is not translated. *)
Lemma X16_translate_trade_never_returns_witness :
  IBTranslator.translate_trade parse_20181019 TradeData.t
    IBTranslator.TradeData_call referenced_trade 0
  = Raise (TypeError "code").
Proof.
  apply (proj2 (X16_translate_trade_never_returns parse_20181019
                  referenced_trade 0)
           Option_ Seller (Some (Py.Date 2018 10 19)) (Some Put) Filled
           "dummy" "SPY_SNP_19102018_100000" "NL" "SPY" "19102018" "100000");
    reflexivity.
Defined.

(** ** [translate_account_value] *)

(** No tag is translated to the empty string. *)
Lemma account_tag_truthy (ib_tag name : string) :
  IBTranslator._translate_account_tag ib_tag = Some name ->
  Py.truthy name = true.
Proof.
  rewrite translate_account_tag_total.
  unfold IBTranslator._account_translation. intros H.
  apply elem_of_list_to_map_2 in H.
  repeat (apply elem_of_cons in H as [[= -> ->]|H]; [reflexivity|]).
  apply elem_of_nil in H. destruct H.
Qed.

Section AccountValues.

Variable CURRENCY : Currency.
Variable float_of_str : string -> result float.

Local Abbreviation is_number := (is_number float_of_str).

Variable Money : Type.
Variable Money_init : string -> Currency -> result Money.
Variable AccountItem : Type.
Variable AccountItem_init :
  string -> string -> option string -> option Money -> result AccountItem.

Local Abbreviation translate_account_value :=
  (IBTranslator.translate_account_value CURRENCY float_of_str Money Money_init
     AccountItem AccountItem_init).

(** X17: what [translate_account_value] makes of an account value.  A tag
    outside the table gives [None], and nothing is built.  For a tag in
    the table, a text that is no number, or one without currency, is kept
    as the value of the item; a number in the currency [BASE] or in a
    currency other than [CURRENCY] is dropped, the item holding neither
    value nor money; a number in [CURRENCY] becomes the money of the
    item.  No item holds both a value and a money. *)
Theorem X17_translate_account_value (item : AccountValue.t) :
  let account := AccountValue.account item in
  let value := AccountValue.value item in
  let currency := AccountValue.currency item in
  let tag := IBTranslator._translate_account_tag (AccountValue.tag item) in
  let build name v m :=
    account_item ← AccountItem_init account name v m; mret (Some account_item) in
  (tag = None -> translate_account_value item = Ok None) /\
  (forall name, tag = Some name ->
     (currency = "" \/ is_number value = false ->
      translate_account_value item = build name (Some value) None) /\
     (currency <> "" -> is_number value = true ->
      currency = "BASE" \/ currency <> Currency_value CURRENCY ->
      translate_account_value item = build name None None) /\
     (currency <> "" -> is_number value = true ->
      currency <> "BASE" -> currency = Currency_value CURRENCY ->
      translate_account_value item
      = (money ← Money_init value CURRENCY; build name None (Some money)))).
Proof.
  cbv zeta. unfold IBTranslator.translate_account_value.
  split; [intros ->; reflexivity|].
  intros name Hname. rewrite Hname, (account_tag_truthy _ _ Hname).
  assert (Htruthy : forall s : string, s <> "" -> Py.truthy s = true)
    by (intros [|c s] Hs; [congruence|reflexivity]).
  split; [|split].
  - intros [-> | Hn]; [reflexivity|].
    rewrite Hn, andb_false_r. reflexivity.
  - intros Hc Hn Hcur. rewrite (Htruthy _ Hc), Hn. cbn [andb].
    destruct (String.eqb_spec (AccountValue.currency item) "BASE") as [E|E];
      cbn [negb]; [reflexivity|].
    destruct Hcur as [Hcur|Hcur]; [congruence|].
    unfold IBTranslator._translate_value_currency.
    apply String.eqb_neq in Hcur. rewrite Hcur. reflexivity.
  - intros Hc Hn Hbase Hcur. rewrite (Htruthy _ Hc), Hn. cbn [andb].
    apply String.eqb_neq in Hbase. rewrite Hbase. cbn [negb].
    unfold IBTranslator._translate_value_currency.
    apply String.eqb_eq in Hcur. rewrite Hcur.
    destruct (Money_init _ _); reflexivity.
Qed.

(** X18: the handler of account values passes on to its callback what the
    translator builds, and leaves the state alone for a tag outside the
    table: such an event raises nothing and changes nothing. *)
Theorem X18_account_event_unknown_tag {S : Type}
    (emit : AccountItem -> S -> S) (item : AccountValue.t) (s : S) :
  IBTranslator._account_translation !! AccountValue.tag item = None ->
  IBBrokerAdapter._onAccountValueEvent CURRENCY float_of_str Money Money_init
    AccountItem AccountItem_init emit item s
  = Ok s.
Proof.
  intros H. unfold IBBrokerAdapter._onAccountValueEvent,
    IBTranslator.translate_account_value.
  rewrite translate_account_tag_total, H. reflexivity.
Qed.

End AccountValues.

(** The net liquidation in dollars is money, in euros it is dropped, and
    the account code is a value. *)
Lemma X17_translate_account_value_witness :
  let translate :=
    IBTranslator.translate_account_value USD float_of_digits plain_money
      plain_money_init plain_item plain_item_init in
  translate (account_value "NetLiquidation" "1500.0" "USD")
  = Ok (Some ("DU1", "net_liquidation", None, Some ("1500.0", USD))) /\
  translate (account_value "NetLiquidation" "1400.0" "EUR")
  = Ok (Some ("DU1", "net_liquidation", None, None)) /\
  translate (account_value "AccountCode" "DU1" "")
  = Ok (Some ("DU1", "id", Some "DU1", None)) /\
  translate (account_value "AccruedCash" "3.0" "USD") = Ok None.
Proof.
  cbv zeta. split; [|split; [|split]].
  - apply (proj2 (X17_translate_account_value USD float_of_digits plain_money
                    plain_money_init plain_item plain_item_init
                    (account_value "NetLiquidation" "1500.0" "USD"))
             "net_liquidation" eq_refl);
      [discriminate|reflexivity|discriminate|reflexivity].
  - apply (proj2 (X17_translate_account_value USD float_of_digits plain_money
                    plain_money_init plain_item plain_item_init
                    (account_value "NetLiquidation" "1400.0" "EUR"))
             "net_liquidation" eq_refl);
      [discriminate|reflexivity|right; discriminate].
  - apply (proj2 (X17_translate_account_value USD float_of_digits plain_money
                    plain_money_init plain_item plain_item_init
                    (account_value "AccountCode" "DU1" ""))
             "id" eq_refl).
    left. reflexivity.
  - apply (proj1 (X17_translate_account_value USD float_of_digits plain_money
                    plain_money_init plain_item plain_item_init
                    (account_value "AccruedCash" "3.0" "USD"))).
    reflexivity.
Defined.

Lemma X18_account_event_unknown_tag_witness :
  IBBrokerAdapter._onAccountValueEvent USD float_of_digits plain_money
    plain_money_init plain_item plain_item_init
    (fun item (log : list plain_item) => item :: log)
    (account_value "AccruedCash" "3.0" "USD") []
  = Ok [].
Proof.
  apply (X18_account_event_unknown_tag USD float_of_digits plain_money
           plain_money_init plain_item plain_item_init).
  reflexivity.
Defined.

(** ** [create_options] *)

(** A loop that returns has one result for each element, in order; a loop
    that raises does so at the first element of which the body raises. *)
Lemma for_each_Ok {A B} (body : A -> result B) (l : list A) (ys : list B) :
  Py.for_each body l = Ok ys <-> Forall2 (fun x y => body x = Ok y) l ys.
Proof.
  revert ys. induction l as [|x l IH]; intros ys; cbn [Py.for_each].
  - split; [intros [= <-]; constructor|intros H; inversion H; reflexivity].
  - split.
    + intros H. apply bind_Ok in H as (y & Hy & H).
      apply bind_Ok in H as (ys' & Hys & H). injection H as <-.
      constructor; [exact Hy|apply IH; exact Hys].
    + intros H. inversion H as [|? y ? ys' Hy Hys]; subst.
      rewrite Hy. cbn [mbind result_bind].
      apply IH in Hys. rewrite Hys. reflexivity.
Qed.

Lemma for_each_Raise {A B} (body : A -> result B) (l : list A) (e : exn) :
  Py.for_each body l = Raise e ->
  exists before x after,
    l = before ++ x :: after /\
    body x = Raise e /\
    Forall (fun x' => exists y, body x' = Ok y) before.
Proof.
  induction l as [|x l IH]; cbn [Py.for_each]; [discriminate|].
  destruct (body x) as [y|e'] eqn:Hx; cbn [mbind result_bind].
  - destruct (Py.for_each body l) as [ys|e'] eqn:Hl; [discriminate|].
    intros [= ->]. destruct (IH eq_refl) as (before & x' & after & -> & Hx' & Hb).
    exists (x :: before), x', after. split; [reflexivity|]. split; [exact Hx'|].
    constructor; [eauto|exact Hb].
  - intros [= ->]. exists [], x, l. split; [reflexivity|]. split; [exact Hx|].
    constructor.
Qed.

Section CreateOptions.

Variable reqTickers : list Contract.t -> list Ticker.t.
Variable parse_ib_date : string -> result Py.date.
Variable toordinal : Py.date -> Z.

Local Abbreviation request_tickers :=
  (IBDataAdapter.request_tickers reqTickers).
Local Abbreviation create_option :=
  (IBDataAdapter.create_option parse_ib_date toordinal).
Local Abbreviation create_options :=
  (IBDataAdapter.create_options reqTickers parse_ib_date toordinal).

Lemma request_loop (qs : list (list Contract.t)) (tickers : list Ticker.t)
    (log : list session_call) :
  foldl
    (fun '(tickers, log) q =>
       (tickers ++ reqTickers q, log ++ [ReqTickers q; Sleep 1]))
    (tickers, log) qs
  = (tickers ++ flat_map reqTickers qs,
     log ++ flat_map (fun q => [ReqTickers q; Sleep 1]) qs).
Proof.
  revert tickers log. induction qs as [|q qs IH]; intros tickers log;
    cbn [foldl flat_map].
  - rewrite !app_nil_r. reflexivity.
  - rewrite IH, <- !app_assoc. reflexivity.
Qed.

Lemma request_tickers_batches
    (q_contracts : list Contract.t) (log : list session_call) :
  exists batches : list (list Contract.t),
    request_tickers q_contracts log
    = Ok (flat_map reqTickers batches,
          log ++ flat_map (fun q => [ReqTickers q; Sleep 1]) batches) /\
    concat batches = q_contracts /\
    Forall (fun q => 0 < Py.len q <= 50) batches /\
    (forall (k : nat) q,
       batches !! k = Some q -> (S k < length batches)%nat -> Py.len q = 50).
Proof.
  destruct (chunks_positive q_contracts 50 ltac:(lia)) as (cs & Hcs & Hrest).
  exists cs. split; [|exact Hrest].
  unfold IBDataAdapter.request_tickers. rewrite Hcs.
  cbn [mbind result_bind mret result_ret]. rewrite request_loop. reflexivity.
Qed.

(** X19: the tickers are requested in batches: every request carries at
    least one and at most 50 contracts, every request but the last carries
    50, the requests carry the contracts in their order, none left out and
    none twice, and a pause of one second follows each request. *)
Theorem X19_request_tickers_batches
    (q_contracts : list Contract.t) (log : list session_call) :
  exists batches : list (list Contract.t),
    request_tickers q_contracts log
    = Ok (flat_map reqTickers batches,
          log ++ flat_map (fun q => [ReqTickers q; Sleep 1]) batches) /\
    concat batches = q_contracts /\
    Forall (fun q => 0 < Py.len q <= 50) batches /\
    (forall (k : nat) q,
       batches !! k = Some q -> (S k < length batches)%nat -> Py.len q = 50).
Proof. apply request_tickers_batches. Qed.

(** X20: how one ticker becomes an option.  Without greeks of the model,
    or with an underlying price of zero, the option has the moneyness
    ["NA"] and a NaN for intrinsic and extrinsic value; with greeks and an
    underlying price, they are those of [_calculate_moneyness]; with
    greeks, an underlying price and a right that is neither ["C"] nor
    ["P"], no option is built, although the same contract without greeks
    would have been taken for a put. *)
Theorem X20_create_option (today : Py.date) (t : Ticker.t) (expiration : Py.date) :
  let contract := Ticker.contract t in
  parse_ib_date (Contract.lastTradeDateOrContractMonth contract) = Ok expiration ->
  (Ticker.modelGreeks t = None \/
   (exists g, Ticker.modelGreeks t = Some g /\
              Py.eq (OptionComputation.undPrice g) 0%float = true) ->
   exists o,
     create_option today t = Ok o /\
     OptionData.moneyness o = "NA" /\
     Py.is_nan (OptionData.intrinsic_value o) = true /\
     Py.is_nan (OptionData.extrinsic_value o) = true /\
     OptionData.right o
     = (if String.eqb (Contract.right contract) "C" then Call else Put) /\
     OptionData.DTE o = toordinal expiration - toordinal today) /\
  (forall g,
     Ticker.modelGreeks t = Some g ->
     Py.eq (OptionComputation.undPrice g) 0%float = false ->
     (forall m i e,
        IBDataAdapter._calculate_moneyness (Contract.strike contract)
          (OptionComputation.optPrice g) (OptionComputation.undPrice g)
          (Contract.right contract) = Ok (m, i, e) ->
        exists o,
          create_option today t = Ok o /\
          OptionData.moneyness o = OptionMoneyness_value m /\
          OptionData.intrinsic_value o = i /\
          OptionData.extrinsic_value o = e /\
          OptionData.underlying_price o = OptionComputation.undPrice g) /\
     (Contract.right contract <> "C" -> Contract.right contract <> "P" ->
      create_option today t = Raise (UnboundLocalError "moneyness"))).
Proof.
  intros contract Hparse. subst contract.
  unfold IBDataAdapter.create_option. split.
  - intros [Hg|(g & Hg & Hund)]; rewrite Hg.
    + cbn [mbind result_bind mret result_ret]. rewrite Hparse.
      eexists. split; [reflexivity|]. repeat split.
    + unfold Py.truthy_float. rewrite Hund.
      cbn [negb mbind result_bind mret result_ret]. rewrite Hparse.
      eexists. split; [reflexivity|]. repeat split.
  - intros g Hg Hund. rewrite Hg. unfold Py.truthy_float. rewrite Hund.
    cbn [negb]. split.
    + intros m i e Hm. rewrite Hm.
      cbn [mbind result_bind mret result_ret]. rewrite Hparse.
      eexists. split; [reflexivity|]. repeat split.
    + intros HC HP.
      rewrite (calculate_moneyness_other_right _ _ _ _ HC HP). reflexivity.
Qed.

(** X21: [create_options] makes all its requests first, and then builds
    one option for each ticker that came back, in their order; the first
    ticker for which no option can be built ends the call with its
    exception, and no option is returned. *)
Theorem X21_create_options_all_or_nothing (today : Py.date)
    (q_contracts : list Contract.t) (log : list session_call) :
  exists batches : list (list Contract.t),
    concat batches = q_contracts /\
    snd (create_options today q_contracts log)
    = log ++ flat_map (fun q => [ReqTickers q; Sleep 1]) batches /\
    match fst (create_options today q_contracts log) with
    | Ok options =>
        Forall2 (fun t o => create_option today t = Ok o)
          (flat_map reqTickers batches) options
    | Raise e =>
        exists before t after,
          flat_map reqTickers batches = before ++ t :: after /\
          create_option today t = Raise e /\
          Forall (fun t' => exists o, create_option today t' = Ok o) before
    end.
Proof.
  destruct (request_tickers_batches q_contracts log)
    as (cs & Hreq & Hcat & _).
  exists cs. split; [exact Hcat|].
  unfold IBDataAdapter.create_options. rewrite Hreq. cbn [fst snd].
  split; [reflexivity|].
  destruct (Py.for_each _ _) as [options|e] eqn:E.
  - apply for_each_Ok. exact E.
  - apply for_each_Raise. exact E.
Qed.

End CreateOptions.

(** The sample put without greeks has no moneyness; a contract of which
    the right is unknown is a put without greeks and an error with
    them. *)
Lemma X20_create_option_witness :
  let create := IBDataAdapter.create_option parse_20181019 day_count
                  (Py.Date 2018 9 19) in
  (exists o, create (put_ticker SPY_put None) = Ok o /\
             OptionData.moneyness o = "NA" /\ OptionData.right o = Put) /\
  (exists o, create (put_ticker SPY_put (Some (put_greeks 245))) = Ok o /\
             OptionData.moneyness o = "ITM" /\
             OptionData.intrinsic_value o = 5%float) /\
  (exists o, create (put_ticker SPY_odd_right None) = Ok o /\
             OptionData.right o = Put) /\
  create (put_ticker SPY_odd_right (Some (put_greeks 245)))
  = Raise (UnboundLocalError "moneyness").
Proof.
  cbv zeta. split; [|split; [|split]].
  - destruct (proj1 (X20_create_option parse_20181019 day_count
                       (Py.Date 2018 9 19) (put_ticker SPY_put None)
                       (Py.Date 2018 10 19) eq_refl) (or_introl eq_refl))
      as (o & Ho & Hm & _ & _ & Hr & _).
    exists o. split; [exact Ho|]. split; [exact Hm|exact Hr].
  - destruct (proj1 (proj2 (X20_create_option parse_20181019 day_count
                              (Py.Date 2018 9 19)
                              (put_ticker SPY_put (Some (put_greeks 245)))
                              (Py.Date 2018 10 19) eq_refl)
                       (put_greeks 245) eq_refl eq_refl)
                    InTheMoney 5%float (-3)%float eq_refl)
      as (o & Ho & Hm & Hi & _).
    exists o. split; [exact Ho|]. split; [exact Hm|exact Hi].
  - destruct (proj1 (X20_create_option parse_20181019 day_count
                       (Py.Date 2018 9 19) (put_ticker SPY_odd_right None)
                       (Py.Date 2018 10 19) eq_refl) (or_introl eq_refl))
      as (o & Ho & _ & _ & _ & Hr & _).
    exists o. split; [exact Ho|exact Hr].
  - apply (proj2 (proj2 (X20_create_option parse_20181019 day_count
                           (Py.Date 2018 9 19)
                           (put_ticker SPY_odd_right (Some (put_greeks 245)))
                           (Py.Date 2018 10 19) eq_refl)
                    (put_greeks 245) eq_refl eq_refl));
      discriminate.
Defined.

(** ** [_calculate_moneyness], continued *)

Lemma le_zero_max (x : float) : Py.le 0%float (Py.max 0%float x) = true.
Proof.
  unfold Py.max. destruct (Py.lt 0%float x) eqn:E; [|reflexivity].
  apply lt_le. exact E.
Qed.

Lemma eq_not_lt (a b : float) :
  Py.eq a b = true -> Py.lt a b = false /\ Py.lt b a = false.
Proof.
  unfold Py.eq, Py.lt.
  rewrite FloatAxioms.eqb_spec, !FloatAxioms.ltb_spec. unfold SFeqb, SFltb.
  rewrite (SFcompare_antisym (Prim2SF a) (Prim2SF b)).
  destruct (SFcompare (Prim2SF a) (Prim2SF b)) as [[]|]; cbn;
    intros H; try discriminate H; split; reflexivity.
Qed.

(** X22: whatever the numbers are, NaN included, when
    [_calculate_moneyness] returns the right is ["C"] or ["P"], the
    moneyness is in-the-money or out-of-the-money and never at-the-money,
    the intrinsic value is a number that is not negative, and the
    extrinsic value is the option price minus the intrinsic value.  At an
    underlying price equal to the strike the call and the put are both in
    the money. *)
Theorem X22_moneyness_range (K P U : float) (right : string) :
  (forall m i e,
     IBDataAdapter._calculate_moneyness K P U right = Ok (m, i, e) ->
     (right = "C" \/ right = "P") /\
     (m = InTheMoney \/ m = OutTheMoney) /\
     Py.le 0%float i = true /\
     e = PrimFloat.sub P i) /\
  (Py.eq U K = true ->
   exists i e i' e',
     IBDataAdapter._calculate_moneyness K P U "C" = Ok (InTheMoney, i, e) /\
     IBDataAdapter._calculate_moneyness K P U "P" = Ok (InTheMoney, i', e')).
Proof.
  split.
  - intros m i e. unfold IBDataAdapter._calculate_moneyness.
    destruct (String.eqb_spec right "C") as [->|HC].
    + cbn [String.eqb Ascii.eqb Bool.eqb Py.local mbind result_bind mret
           result_ret].
      intros [= <- <- <-]. split; [left; reflexivity|].
      split; [|split; [apply le_zero_max|reflexivity]].
      destruct (Py.gt U K); [left; reflexivity|].
      destruct (Py.lt U K); [right|left]; reflexivity.
    + destruct (String.eqb_spec right "P") as [->|HP].
      * cbn [Py.local mbind result_bind mret result_ret].
        intros [= <- <- <-]. split; [right; reflexivity|].
        split; [|split; [apply le_zero_max|reflexivity]].
        destruct (Py.lt U K); [left; reflexivity|].
        destruct (Py.gt U K); [right|left]; reflexivity.
      * cbn [Py.local mbind result_bind]. discriminate.
  - intros H. apply eq_not_lt in H as [H1 H2].
    unfold IBDataAdapter._calculate_moneyness, Py.gt.
    cbn [String.eqb Ascii.eqb Bool.eqb Py.local mbind result_bind mret
         result_ret].
    change (PrimFloat.ltb K U) with (Py.lt K U).
    change (PrimFloat.ltb U K) with (Py.lt U K).
    rewrite H1, H2. eexists _, _, _, _. split; reflexivity.
Qed.

Lemma X22_moneyness_range_witness :
  (exists i e i' e',
     IBDataAdapter._calculate_moneyness 100 3 100 "C" = Ok (InTheMoney, i, e) /\
     IBDataAdapter._calculate_moneyness 100 3 100 "P" = Ok (InTheMoney, i', e')) /\
  Py.le 0%float 0%float = true.
Proof.
  split.
  - apply (proj2 (X22_moneyness_range 100 3 100 "C")). reflexivity.
  - apply (proj1 (X22_moneyness_range 100 1 Py.nan "C")
             InTheMoney 0%float 1%float eq_refl).
Defined.

(** ** The translators: what comes back, and what does not *)

Section TranslationSummary.

Variable parse_ib_date : string -> result Py.date.
Variable str_round1 : float -> string.
Variable strftime_dmY : Py.date -> string.
Variable TradeData : Type.
Variable TradeData_init : IBTranslator.trade_kwargs -> result TradeData.

Local Abbreviation translate_position :=
  (IBTranslator.translate_position parse_ib_date str_round1 strftime_dmY).
Local Abbreviation translate_trade :=
  (IBTranslator.translate_trade parse_ib_date TradeData TradeData_init).

(** X23: a position that [translate_position] returns has a side, buyer
    for a quantity above zero and seller for one below, the absolute value
    of the quantity reported, the right and the expiration of an option,
    and an instrument type of the table. *)
Theorem X23_translated_position (item : IBPosition.t) (p : PositionData.t) :
  translate_position item = Ok p ->
  PositionData.quantity p = Z.abs (IBPosition.position item) /\
  (0 < IBPosition.position item /\ PositionData.ownership p = Some Buyer \/
   IBPosition.position item < 0 /\ PositionData.ownership p = Some Seller) /\
  is_Some (PositionData.right p) /\
  is_Some (PositionData.expiration p) /\
  IBTranslator._sectype_translation
    !! Contract.secType (IBPosition.contract item)
  = Some (PositionData.asset_type p) /\
  PositionData.code p = Contract.symbol (IBPosition.contract item).
Proof.
  intros H.
  destruct (translate_position_ownership parse_ib_date str_round1 strftime_dmY
              item p H) as [Hq Ho].
  split; [exact Hq|]. split; [exact Ho|].
  unfold IBTranslator.translate_position in H.
  apply bind_Ok in H as (ty & Hty & H). apply getitem_Ok in Hty.
  apply bind_Ok in H as (expiration & _ & H).
  apply bind_Ok in H as (right & _ & H).
  unfold PositionData.__init__ in H.
  apply bind_Ok in H as (ov & _ & H).
  apply bind_Ok in H as (rv & Hrv & H).
  apply bind_Ok in H as (ev & Hev & H).
  injection H as <-. cbn.
  destruct right; [|discriminate Hrv]. destruct expiration; [|discriminate Hev].
  repeat split; eauto.
Qed.

(** X24: an instrument type, an order action, a right or a status outside
    its table makes a translator raise: for the instrument type
    [KeyError] with that type, from both translators. *)
Theorem X24_unknown_key_raises (now : Py.datetime) :
  (forall item : IBPosition.t,
     IBTranslator._sectype_translation
       !! Contract.secType (IBPosition.contract item) = None ->
     translate_position item
     = Raise (KeyError (Contract.secType (IBPosition.contract item)))) /\
  (forall item : IBPosition.t,
     Contract.right (IBPosition.contract item) <> "" ->
     IBTranslator._right_translation
       !! Contract.right (IBPosition.contract item) = None ->
     raises (translate_position item)) /\
  (forall item : Trade.t,
     IBTranslator._sectype_translation
       !! Contract.secType (Trade.contract item) = None ->
     translate_trade item now
     = Raise (KeyError (Contract.secType (Trade.contract item)))) /\
  (forall item : Trade.t,
     IBTranslator._ownership_translation
       !! IBOrder.action (Trade.order item) = None ->
     raises (translate_trade item now)) /\
  (forall item : Trade.t,
     IBTranslator._order_status_translation
       !! IBOrderStatus.status (Trade.orderStatus item) = None ->
     raises (translate_trade item now)).
Proof.
  split; [apply translate_position_unknown_secType|].
  split; [|split; [intros item; apply translate_trade_unknown_secType|
                   split; [intros item; apply translate_trade_unknown_action|
                           intros item; apply translate_trade_unknown_status]]].
  intros item Hr Hnone. unfold IBTranslator.translate_position.
  do 2 run_statement. unfold IBTranslator.translate_right.
  destruct (Contract.right (IBPosition.contract item)) as [|c r] eqn:Eright;
    [congruence|].
  cbn [Py.truthy]. rewrite (getitem_None _ _ Hnone). apply raises_Raise.
Qed.

End TranslationSummary.

Lemma X23_translated_position_witness :
  exists p,
    IBTranslator.translate_position parse_20181019 (fun _ => "250.0")
      (fun _ => "19-10-2018") (put_position 2) = Ok p /\
    PositionData.quantity p = 2 /\ PositionData.ownership p = Some Buyer.
Proof.
  eexists. split; [reflexivity|].
  destruct (X23_translated_position parse_20181019 (fun _ => "250.0")
              (fun _ => "19-10-2018") (put_position 2) _ eq_refl)
    as (Hq & [[_ Ho]|[Hneg _]] & _).
  - split; [exact Hq|exact Ho].
  - cbn in Hneg. lia.
Defined.

Lemma X24_unknown_key_raises_witness :
  IBTranslator.translate_position parse_20181019 (fun _ => "250.0")
    (fun _ => "19-10-2018") bag_position = Raise (KeyError "BAG") /\
  raises (IBTranslator.translate_trade parse_20181019 IBTranslator.trade_kwargs
            Ok (stock_trade "STK" "BUY" "ApiPending") 0).
Proof.
  split.
  - apply (proj1 (X24_unknown_key_raises parse_20181019 (fun _ => "250.0")
                    (fun _ => "19-10-2018") IBTranslator.trade_kwargs Ok 0)
             bag_position).
    reflexivity.
  - apply (proj2 (proj2 (proj2 (proj2
             (X24_unknown_key_raises parse_20181019 (fun _ => "250.0")
                (fun _ => "19-10-2018") IBTranslator.trade_kwargs Ok 0))))
             (stock_trade "STK" "BUY" "ApiPending")).
    reflexivity.
Defined.

(** ** The properties of [Asset], read back *)

Lemma assign_all_historical (l : list Asset.assignment) (a : Asset.t) :
  Asset._historical_data (Asset.assign_all a l)
  = foldl
      (fun held x =>
         match x with
         | Asset.Assign_historical values _ => Some values
         | _ => held
         end)
      (Asset._historical_data a) l /\
  Asset._historical_IV_data (Asset.assign_all a l)
  = foldl
      (fun held x =>
         match x with
         | Asset.Assign_historical_IV values _ => Some values
         | _ => held
         end)
      (Asset._historical_IV_data a) l.
Proof.
  unfold Asset.assign_all. revert a.
  induction l as [|x l IH]; intros a; cbn [foldl]; [split; reflexivity|].
  destruct (IH (Asset.assign a x)) as [-> ->]. destruct x; split; reflexivity.
Qed.

(** X25: the three properties of an asset are independent of each other:
    after any assignments, [current], [historical] and [historical_IV]
    each return what was assigned last through their own setter, and
    [None] when nothing was. *)
Theorem X25_asset_properties_read_back
    (CURRENCY : Currency) (code : string) (asset_type : AssetType)
    (data_source : option DataSource) (currency : option Currency)
    (l : list Asset.assignment) :
  let a := Asset.assign_all
             (Asset.__init__ CURRENCY code asset_type data_source currency) l in
  Asset.current a = last_current l /\
  Asset.historical a = last_historical l /\
  Asset.historical_IV a = last_historical_IV l.
Proof.
  intros a. subst a.
  unfold Asset.current, Asset.historical, Asset.historical_IV.
  rewrite assign_all_data.
  destruct (assign_all_historical l
              (Asset.__init__ CURRENCY code asset_type data_source currency))
    as [-> ->].
  split; [|split]; reflexivity.
Qed.

(** ** The identifier of a position *)

Section PositionIds.

Variable str_round1 : float -> string.
Variable strftime_dmY : Py.date -> string.

Local Abbreviation init := (PositionData.__init__ str_round1 strftime_dmY).

(** X26: the [position_id] tells the sides apart and nothing else of what
    changes from one event to the next: a long and a short position in one
    code never have the same id, while two positions of one code, side,
    right, strike and expiration have the same id whatever their asset
    types, quantities and average costs. *)
Theorem X26_position_id
    (code : string) (right : RightType) (strike : float) (expiration : Py.date)
    type1 quantity1 cost1 type2 quantity2 cost2 :
  (forall ownership p1 p2,
     init code type1 (Some ownership) quantity1 (Some expiration) strike
       (Some right) cost1 = Ok p1 ->
     init code type2 (Some ownership) quantity2 (Some expiration) strike
       (Some right) cost2 = Ok p2 ->
     PositionData.position_id p1 = PositionData.position_id p2) /\
  (forall right2 strike2 expiration2 p1 p2,
     init code type1 (Some Buyer) quantity1 (Some expiration) strike
       (Some right) cost1 = Ok p1 ->
     init code type2 (Some Seller) quantity2 (Some expiration2) strike2
       (Some right2) cost2 = Ok p2 ->
     PositionData.position_id p1 <> PositionData.position_id p2).
Proof.
  split.
  - intros ownership p1 p2 [= <-] [= <-]. reflexivity.
  - intros right2 strike2 expiration2 p1 p2 [= <-] [= <-].
    cbn [PositionData.position_id OwnershipType_value]. intros H.
    apply append_inj_r in H. cbn in H. discriminate H.
Qed.

End PositionIds.

Lemma X26_position_id_witness :
  exists p1 p2,
    PositionData.__init__ (fun _ => "250.0") (fun _ => "19-10-2018") "SPY"
      Option_ (Some Buyer) 2 (Some (Py.Date 2018 10 19)) 250%float (Some Put)
      None = Ok p1 /\
    PositionData.__init__ (fun _ => "250.0") (fun _ => "19-10-2018") "SPY"
      Option_ (Some Seller) 2 (Some (Py.Date 2018 10 19)) 250%float (Some Put)
      None = Ok p2 /\
    PositionData.position_id p1 <> PositionData.position_id p2.
Proof.
  eexists _, _. split; [reflexivity|]. split; [reflexivity|].
  exact (proj2 (X26_position_id (fun _ => "250.0") (fun _ => "19-10-2018")
                  "SPY" Put 250%float (Py.Date 2018 10 19)
                  Option_ 2 None Option_ 2 None)
           Put 250%float (Py.Date 2018 10 19) _ _ eq_refl eq_refl).
Defined.
